(** * QMC5883L magnetometer driver: shallow embedding and verification

    The Go package [qmc5883l] drives a 3-axis magnetometer over an I2C bus.
    Its functions are embedded here as state-passing Rocq functions over an
    abstract bus: Go's [byte], [uint16], [int16] and [int] values are
    integers of [Z] with the conversions written out, a Go [error] is an
    [option error] ([None] is [nil]), and every bus transaction is recorded
    in a trace so that the order and number of register accesses can be
    stated. *)

From Stdlib Require Import ZArith List String Bool Lia.
Import ListNotations.
Local Open Scope Z_scope.

(** ** Machine integers *)

Module Int.

(** Go's conversion [uint16(x)]: the low 16 bits. *)
Definition to_uint16 (z : Z) : Z := z mod 65536.

(** Go's conversion [int16(x)]: the low 16 bits read as a signed value. *)
Definition to_int16 (z : Z) : Z := (z + 32768) mod 65536 - 32768.

(** Go's conversion [byte(x)]. *)
Definition to_byte (z : Z) : Z := z mod 256.

Definition is_uint16 (z : Z) : Prop := 0 <= z < 65536.
Definition is_int16 (z : Z) : Prop := -32768 <= z < 32768.
Definition is_byte (z : Z) : Prop := 0 <= z < 256.

End Int.

(** ** Register map and bit encodings (the [const] blocks) *)

Definition DfltBus : Z := 1.
Definition DfltAddress : Z := 0x0d.

Definition RegXoutLSB : Z := 0x00.
Definition RegYoutLSB : Z := 0x02.
Definition RegZoutLSB : Z := 0x04.

Definition RegToutLSB : Z := 0x07.

Definition RegStatus1 : Z := 0x06.
Definition StatDRDY : Z := 0x01.
Definition StatOVL : Z := 0x02.
Definition StatDOR : Z := 0x04.

Definition RegControl1 : Z := 0x09.
Definition ModeSTBY : Z := 0x00.
Definition ModeCONT : Z := 0x01.
Definition Odr10HZ : Z := 0x00.
Definition Odr50HZ : Z := 0x04.
Definition Odr100HZ : Z := 0x08.
Definition Odr200HZ : Z := 0x0c.
Definition Rng2G : Z := 0x00.
Definition Rng8G : Z := 0x10.
Definition Osr512 : Z := 0x00.
Definition Osr256 : Z := 0x40.
Definition Osr128 : Z := 0x80.
Definition Osr64 : Z := 0xc0.

Definition RegControl2 : Z := 0x0a.
Definition IntEnb : Z := 0x01.
Definition PolPnt : Z := 0x40.
Definition SoftRst : Z := 0x80.

Definition RegRstPeriod : Z := 0x0b.
Definition RegChipID : Z := 0x0d.

(** ** Two's complement decoding *)

(** [func complement2(val uint16) int16] *)
Definition complement2 (val : Z) : Z :=
  if val >=? 0x8000 then Int.to_int16 (val - 0x10000)
  else Int.to_int16 val.

(** ** Errors *)

(** A Go [error] value: one made by [errors.New] in the driver, or one that
    comes from the bus transport. *)
Inductive error : Type :=
  | errorString (msg : string)
  | busError (msg : string).

Definition msgOverflow : string := "Magnetic sensor overflow.".
Definition msgRangeHint : string := " Consider switching to Rng8G output range.".
Definition msgSkipped : string := "data skipped for reading".

(** ** The bus transport

    [W] is the state of everything behind the I2C library (the kernel device,
    the chip), [H] the handle [*i2c.I2C] that [i2c.NewI2C] returns.  The
    functions return Go's value and error pair as it is. *)
Class I2CEnv (W H : Type) : Type := {
  NewI2C : Z -> Z -> W -> (H * option error) * W;
  WriteRegU8 : H -> Z -> Z -> W -> option error * W;
  ReadRegU8 : H -> Z -> W -> (Z * option error) * W;
  ReadRegU16LE : H -> Z -> W -> (Z * option error) * W
}.

(** One bus transaction, as the driver issued it. *)
Inductive Event (H : Type) : Type :=
  | EvNewI2C (addr busno : Z)
  | EvWriteRegU8 (h : H) (reg val : Z)
  | EvReadRegU8 (h : H) (reg : Z)
  | EvReadRegU16LE (h : H) (reg : Z).

Arguments EvNewI2C {H} addr busno.
Arguments EvWriteRegU8 {H} h reg val.
Arguments EvReadRegU8 {H} h reg.
Arguments EvReadRegU16LE {H} h reg.

(** The world the driver runs in: the transport's state and the transactions
    issued so far, oldest first. *)
Record World (W H : Type) : Type := mkWorld {
  dev : W;
  trace : list (Event H)
}.

Arguments mkWorld {W H} dev trace.
Arguments dev {W H} w.
Arguments trace {W H} w.

(** What a call that may end in [log.Fatal] does: it returns a value, or the
    process exits with the logged error. *)
Inductive outcome (A : Type) : Type :=
  | Returned (a : A)
  | Fatal (e : error).

Arguments Returned {A} a.
Arguments Fatal {A} e.

(** State passing over the world. *)
Definition M (W H A : Type) : Type := World W H -> A * World W H.

Definition ret {W H A} (a : A) : M W H A := fun w => (a, w).

Definition bind {W H A B} (m : M W H A) (k : A -> M W H B) : M W H B :=
  fun w => let (a, w') := m w in k a w'.

Declare Scope drv_scope.
Delimit Scope drv_scope with drv.
Notation "x <- m ;; k" := (bind m (fun x => k))
  (at level 61, m at next level, right associativity) : drv_scope.
Notation "' pat <- m ;; k" := (bind m (fun x => match x with pat => k end))
  (at level 61, pat pattern, m at next level, right associativity) : drv_scope.

Section Driver.

Context {W H : Type} {env : I2CEnv W H}.

Local Open Scope drv_scope.

(** [type QMC5883L struct] *)
Record QMC5883L : Type := mkQMC5883L {
  i2cBus : Z;
  address : Z;
  outputDataRate : Z;
  outputRange : Z;
  oversamplingRate : Z;
  bus : H
}.

(** The four calls into the I2C library, each leaving its transaction in
    the trace. *)
Definition i2c_NewI2C (addr busno : Z) : M W H (H * option error) :=
  fun w => let (r, d) := NewI2C addr busno (dev w) in
           (r, mkWorld d (trace w ++ [EvNewI2C addr busno])).

Definition bus_WriteRegU8 (h : H) (reg val : Z) : M W H (option error) :=
  fun w => let (r, d) := WriteRegU8 h reg val (dev w) in
           (r, mkWorld d (trace w ++ [EvWriteRegU8 h reg val])).

Definition bus_ReadRegU8 (h : H) (reg : Z) : M W H (Z * option error) :=
  fun w => let (r, d) := ReadRegU8 h reg (dev w) in
           (r, mkWorld d (trace w ++ [EvReadRegU8 h reg])).

Definition bus_ReadRegU16LE (h : H) (reg : Z) : M W H (Z * option error) :=
  fun w => let (r, d) := ReadRegU16LE h reg (dev w) in
           (r, mkWorld d (trace w ++ [EvReadRegU16LE h reg])).

(** [func (q *QMC5883L) SetMode(mode, odr, rng, osr byte) error]; the
    receiver is updated in place, so the new receiver is returned with the
    error. *)
Definition SetMode (q : QMC5883L) (mode odr rng osr : Z)
  : M W H (QMC5883L * option error) :=
  let q := mkQMC5883L (i2cBus q) (address q) odr (outputRange q)
                      (oversamplingRate q) (bus q) in
  let q := mkQMC5883L (i2cBus q) (address q) (outputDataRate q) rng
                      (oversamplingRate q) (bus q) in
  let q := mkQMC5883L (i2cBus q) (address q) (outputDataRate q)
                      (outputRange q) osr (bus q) in
  err <- bus_WriteRegU8 (bus q) RegControl1
           (Z.lor (Z.lor (Z.lor mode odr) rng) osr) ;;
  ret (q, err).

(** [func New(i2cBus int, address uint8) *QMC5883L]; the logger call at the
    top only sets a log level and is left out. *)
Definition New (i2cBus address : Z) : M W H (outcome QMC5883L) :=
  let i2cBus := if i2cBus =? 0 then DfltBus else i2cBus in
  let address := if address =? 0 then DfltAddress else address in
  '(bus, err) <- i2c_NewI2C address i2cBus ;;
  match err with
  | Some e => ret (Fatal e)
  | None =>
    let q := mkQMC5883L i2cBus address Odr10HZ Rng2G Osr512 bus in
    err <- bus_WriteRegU8 bus RegRstPeriod 0x01 ;;
    match err with
    | Some e => ret (Fatal e)
    | None =>
      err <- bus_WriteRegU8 bus RegControl2 SoftRst ;;
      match err with
      | Some e => ret (Fatal e)
      | None =>
        '(q, _) <- SetMode q ModeCONT (outputDataRate q) (outputRange q)
                     (oversamplingRate q) ;;
        ret (Returned q)
      end
    end
  end.

(** [func (q *QMC5883L) ReadRegistry(registry byte) (byte, error)] *)
Definition ReadRegistry (q : QMC5883L) (registry : Z)
  : M W H (Z * option error) :=
  '(b, err) <- bus_ReadRegU8 (bus q) registry ;;
  ret (b, err).

(** [func (q *QMC5883L) ReadWord(registry byte) (int16, error)] *)
Definition ReadWord (q : QMC5883L) (registry : Z)
  : M W H (Z * option error) :=
  '(val, err) <- bus_ReadRegU16LE (bus q) registry ;;
  ret (complement2 val, err).

(** [func (q *QMC5883L) GetMagnetRaw() (int16, int16, int16, error)] *)
Definition GetMagnetRaw (q : QMC5883L) : M W H (Z * Z * Z * option error) :=
  let x := 0 in
  let y := 0 in
  let z := 0 in
  '(status, err) <- ReadRegistry q RegStatus1 ;;
  match err with
  | None =>
    if Z.land status StatOVL =? StatOVL then
      let msg := msgOverflow in
      let msg := if outputRange q =? Rng2G
                 then (msg ++ msgRangeHint)%string else msg in
      ret (x, y, z, Some (errorString msg))
    else if Z.land status StatDRDY =? StatDRDY then
      '(x, err) <- ReadWord q RegXoutLSB ;;
      match err with
      | Some _ => ret (x, y, z, err)
      | None =>
        '(y, err) <- ReadWord q RegYoutLSB ;;
        match err with
        | Some _ => ret (x, y, z, err)
        | None =>
          '(z, err) <- ReadWord q RegZoutLSB ;;
          ret (x, y, z, err)
        end
      end
    else if Z.land status StatDOR =? StatDOR then
      '(_, err) <- ReadWord q RegToutLSB ;;
      let err := match err with
                 | None => Some (errorString msgSkipped)
                 | Some _ => err
                 end in
      ret (x, y, z, err)
    else ret (x, y, z, err)
  | Some _ => ret (x, y, z, err)
  end.

End Driver.

Arguments QMC5883L H : clear implicits.

(** ** Status flags

    The status byte as the register map reads it: bit 0 is data-ready,
    bit 1 overflow, bit 2 data-skipped.  The driver tests the flags with the
    masks [StatDRDY], [StatOVL] and [StatDOR]; [flag_mask] relates the two. *)

Definition dataReady (status : Z) : bool := Z.testbit status 0.
Definition overflow (status : Z) : bool := Z.testbit status 1.
Definition dataSkipped (status : Z) : bool := Z.testbit status 2.

(** The outcome classes of one sample read, in the order of their priority. *)
Inductive Outcome : Type := Overflow | Ready | Skipped | NoneReady.

Definition classify (status : Z) : Outcome :=
  if overflow status then Overflow
  else if dataReady status then Ready
  else if dataSkipped status then Skipped
  else NoneReady.

(** The error [GetMagnetRaw] makes for an overflow, with and without the
    advice to change the range. *)
Definition errOverflowHint : error :=
  errorString (msgOverflow ++ msgRangeHint).
Definition errOverflowPlain : error := errorString msgOverflow.
Definition errSkipped : error := errorString msgSkipped.

(** ** Enumerations of the configuration fields and their encodings *)

Inductive Mode : Type := Standby | Continuous.
Inductive DataRate : Type := Rate10Hz | Rate50Hz | Rate100Hz | Rate200Hz.
Inductive Range : Type := Gauss2 | Gauss8.
Inductive Oversampling : Type := Over512 | Over256 | Over128 | Over64.

Definition modeBits (m : Mode) : Z :=
  match m with Standby => ModeSTBY | Continuous => ModeCONT end.

Definition rateBits (r : DataRate) : Z :=
  match r with
  | Rate10Hz => Odr10HZ | Rate50Hz => Odr50HZ
  | Rate100Hz => Odr100HZ | Rate200Hz => Odr200HZ
  end.

Definition rangeBits (g : Range) : Z :=
  match g with Gauss2 => Rng2G | Gauss8 => Rng8G end.

Definition oversamplingBits (o : Oversampling) : Z :=
  match o with
  | Over512 => Osr512 | Over256 => Osr256
  | Over128 => Osr128 | Over64 => Osr64
  end.

(** ** A scripted bus

    A transport whose answers are fixed per register, used to run the driver
    on concrete inputs.  The handle remembers the address and bus number it
    was opened with. *)

Module Mock.

Record Chip : Type := mkChip {
  open_result : option error;
  write_result : Z -> Z -> option error;
  byte_result : Z -> Z * option error;
  word_result : Z -> Z * option error
}.

Definition Handle : Type := (Z * Z)%type.

#[global] Instance env : I2CEnv Chip Handle := {
  NewI2C addr busno c := (((addr, busno), open_result c), c);
  WriteRegU8 _ reg val c := (write_result c reg val, c);
  ReadRegU8 _ reg c := (byte_result c reg, c);
  ReadRegU16LE _ reg c := (word_result c reg, c)
}.

Definition EIO : error := busError "input/output error".

(** A chip that answers every transaction, reporting [status] and the three
    axis words [xw], [yw], [zw]. *)
Definition healthy (status xw yw zw : Z) : Chip :=
  mkChip None (fun _ _ => None)
    (fun reg => if reg =? RegStatus1 then (status, None) else (0, None))
    (fun reg =>
       if reg =? RegXoutLSB then (xw, None)
       else if reg =? RegYoutLSB then (yw, None)
       else if reg =? RegZoutLSB then (zw, None)
       else (0, None)).

(** A chip that reports [status] and then fails the word read at [bad]. *)
Definition failing_word (status bad : Z) : Chip :=
  mkChip None (fun _ _ => None)
    (fun reg => if reg =? RegStatus1 then (status, None) else (0, None))
    (fun reg => if reg =? bad then (0, Some EIO) else (0x0102, None)).

(** A chip that opens but rejects the write to register [bad]. *)
Definition failing_write (bad : Z) : Chip :=
  mkChip None (fun reg _ => if reg =? bad then Some EIO else None)
    (fun _ => (0, None)) (fun _ => (0, None)).

(** A bus that cannot be opened. *)
Definition absent : Chip :=
  mkChip (Some EIO) (fun _ _ => Some EIO)
    (fun _ => (0, Some EIO)) (fun _ => (0, Some EIO)).

Definition handle : Handle := (DfltAddress, DfltBus).

(** A driver as [New] leaves it on the default bus. *)
Definition driver : QMC5883L Handle :=
  mkQMC5883L DfltBus DfltAddress Odr10HZ Rng2G Osr512 handle.

Definition start (c : Chip) : World Chip Handle := mkWorld c [].

End Mock.

(** ** Defaults of [New]

    The bus number and the address [New] works with: [DfltBus] and
    [DfltAddress] stand in for 0. *)
Definition effectiveBus (busno : Z) : Z :=
  if busno =? 0 then DfltBus else busno.
Definition effectiveAddress (addr : Z) : Z :=
  if addr =? 0 then DfltAddress else addr.

(** ** Closing the handle

    [Close] of the I2C library, and the nil pointer that [*i2c.I2C] has as
    one of its values.  The library's methods read the fields of their
    receiver, so a call on the nil pointer ends in a nil-pointer panic before
    it does anything. *)
Class I2CCloser (W H : Type) : Type := {
  nilHandle : H;
  isNil : H -> bool;
  isNil_nilHandle : isNil nilHandle = true;
  CloseI2C : H -> W -> option error * W
}.

(** How a call that may dereference a nil pointer ends. *)
Inductive completion (A : Type) : Type :=
  | Completes (a : A)
  | Panics.

Arguments Completes {A} a.
Arguments Panics {A}.

(** [func (q *QMC5883L) Close() error]; [q.bus.Close()] panics on a nil
    [q.bus], before [q.bus = nil] is reached.  Closing reads and writes no
    register, so the trace is left as it is. *)
Definition Close {W H : Type} {closer : I2CCloser W H} (q : QMC5883L H)
  (w : World W H)
  : completion (QMC5883L H * option error) * World W H :=
  if isNil (bus q) then (Panics, w)
  else
    let (err, d) := CloseI2C (bus q) (dev w) in
    let q := mkQMC5883L (i2cBus q) (address q) (outputDataRate q)
                        (outputRange q) (oversamplingRate q) nilHandle in
    (Completes (q, err), mkWorld d (trace w)).

(** ** The sampling program ([main.go])

    The sensor part of [main]: the construction and configuration of the
    sensor, and the first [n] rounds of the endless sampling loop, whose log
    lines are collected as the values printed.  Opening the GPIO library,
    the command-line flags and the pause between rounds are outside. *)

Definition LogLine : Type := (Z * Z * Z * option error)%type.

Section Program.

Context {W H : Type} {env : I2CEnv W H}.

Local Open Scope drv_scope.

(** [sensor := qmc5883l.New(qmc5883l.DfltBus, qmc5883l.DfltAddress)] and
    [sensor.SetMode(ModeCONT, Odr200HZ, Rng8G, Osr512)], the error of which
    [main] drops. *)
Definition main_sensor : M W H (outcome (QMC5883L H)) :=
  r <- New DfltBus DfltAddress ;;
  match r with
  | Fatal e => ret (Fatal e)
  | Returned sensor =>
    '(sensor, _) <- SetMode sensor ModeCONT Odr200HZ Rng8G Osr512 ;;
    ret (Returned sensor)
  end.

(** [for { x, y, z, err := sensor.GetMagnetRaw(); log.Printf(...); ... }],
    cut after [n] rounds. *)
Fixpoint main_loop (n : nat) (sensor : QMC5883L H) : M W H (list LogLine) :=
  match n with
  | O => ret []
  | S n' =>
    line <- GetMagnetRaw sensor ;;
    lines <- main_loop n' sensor ;;
    ret (line :: lines)
  end.

End Program.

(** A transaction that only reads a register. *)
Definition isRead {H : Type} (ev : Event H) : bool :=
  match ev with
  | EvReadRegU8 _ _ | EvReadRegU16LE _ _ => true
  | EvNewI2C _ _ | EvWriteRegU8 _ _ _ => false
  end.

(** The handle a transaction was issued on; opening the bus has none yet. *)
Definition eventHandle {H : Type} (ev : Event H) : option H :=
  match ev with
  | EvNewI2C _ _ => None
  | EvWriteRegU8 h _ _ | EvReadRegU8 h _ | EvReadRegU16LE h _ => Some h
  end.

(** ** Flags with defaults from the environment ([main.go])

    [F] is the state of the process that [os.LookupEnv] reads and
    [flag.String] extends, [P] the [*string] that [flag.String] returns. *)
Class FlagEnv (F P : Type) : Type := {
  LookupEnv : string -> F -> string * bool;
  flag_String : string -> string -> string -> F -> P * F
}.

(** [func getEnvArg(env string, arg string, dflt string, usage string)
    *string] *)
Definition getEnvArg {F P : Type} {fe : FlagEnv F P}
  (env arg dflt usage : string) (f : F) : P * F :=
  let '(ev, avail) := LookupEnv env f in
  let dflt := if (avail : bool) then ev else dflt in
  let '(v, f) := flag_String env dflt usage f in
  (v, f).

(** ** A scripted closer and a scripted process *)

Module Bench.

(** Handles with a nil value: [None] is nil. *)
Definition Handle : Type := option (Z * Z).

(** A device whose close reports [close_result]. *)
Record Line : Type := mkLine {
  close_result : option error
}.

#[global] Instance closer : I2CCloser Line Handle := {
  nilHandle := None;
  isNil h := match h with None => true | Some _ => false end;
  isNil_nilHandle := eq_refl;
  CloseI2C _ c := (close_result c, c)
}.

Definition driver : QMC5883L Handle :=
  mkQMC5883L DfltBus DfltAddress Odr200HZ Rng8G Osr64
             (Some (DfltAddress, DfltBus)).

(** A process: its environment variables and the string flags defined so
    far, each with its name, default value and usage. *)
Record Process : Type := mkProcess {
  environ : list (string * string);
  flags : list (string * string * string)
}.

Fixpoint lookup (key : string) (l : list (string * string))
  : string * bool :=
  match l with
  | [] => (EmptyString, false)
  | (k, v) :: l' => if String.eqb k key then (v, true) else lookup key l'
  end.

(** The pointer returned for a flag is modelled by the flag's name. *)
#[global] Instance process : FlagEnv Process string := {
  LookupEnv key p := lookup key (environ p);
  flag_String name value usage p :=
    (name, mkProcess (environ p) (flags p ++ [(name, value, usage)]))
}.

End Bench.

(** ** Arithmetic and bit lemmas *)

Lemma to_int16_small (z : Z) : Int.is_int16 z -> Int.to_int16 z = z.
Proof.
  unfold Int.is_int16, Int.to_int16. intros Hz.
  rewrite Z.mod_small by lia. lia.
Qed.

Lemma to_int16_range (z : Z) : Int.is_int16 (Int.to_int16 z).
Proof.
  unfold Int.is_int16, Int.to_int16.
  pose proof (Z.mod_pos_bound (z + 32768) 65536 ltac:(lia)). lia.
Qed.

Lemma complement2_low (v : Z) : 0 <= v < 0x8000 -> complement2 v = v.
Proof.
  intros Hv. unfold complement2.
  destruct (Z.geb_spec v 0x8000) as [Hge | Hlt]; [lia |].
  apply to_int16_small. unfold Int.is_int16. lia.
Qed.

Lemma complement2_high (v : Z) :
  0x8000 <= v < 0x10000 -> complement2 v = v - 65536.
Proof.
  intros Hv. unfold complement2.
  destruct (Z.geb_spec v 0x8000) as [Hge | Hlt]; [| lia].
  apply to_int16_small. unfold Int.is_int16. lia.
Qed.

Lemma to_uint16_complement2 (v : Z) :
  Int.is_uint16 v -> Int.to_uint16 (complement2 v) = v.
Proof.
  unfold Int.is_uint16. intros Hv.
  destruct (Z_lt_ge_dec v 0x8000) as [Hlt | Hge].
  - rewrite complement2_low by lia.
    unfold Int.to_uint16. apply Z.mod_small. lia.
  - rewrite complement2_high by lia.
    unfold Int.to_uint16.
    replace (v - 65536) with (v + (-1) * 65536) by lia.
    rewrite Z.mod_add by lia. apply Z.mod_small. lia.
Qed.

Lemma land_pow2 (a k : Z) :
  0 <= k -> Z.land a (2 ^ k) = if Z.testbit a k then 2 ^ k else 0.
Proof.
  intros Hk. apply Z.bits_inj'. intros n Hn.
  rewrite Z.land_spec, Z.pow2_bits_eqb by assumption.
  destruct (Z.eqb_spec k n) as [-> | Hne].
  - rewrite andb_true_r.
    destruct (Z.testbit a n); [| now rewrite Z.bits_0].
    rewrite Z.pow2_bits_eqb by assumption. symmetry. apply Z.eqb_refl.
  - rewrite andb_false_r.
    destruct (Z.testbit a k); [| now rewrite Z.bits_0].
    rewrite Z.pow2_bits_eqb by assumption.
    symmetry. now apply Z.eqb_neq.
Qed.

Lemma flag_mask (a k : Z) :
  0 <= k -> (Z.land a (2 ^ k) =? 2 ^ k) = Z.testbit a k.
Proof.
  intros Hk. rewrite land_pow2 by assumption.
  destruct (Z.testbit a k).
  - apply Z.eqb_refl.
  - apply Z.eqb_neq. pose proof (Z.pow_pos_nonneg 2 k ltac:(lia) Hk). lia.
Qed.

Lemma test_StatOVL (status : Z) :
  (Z.land status StatOVL =? StatOVL) = overflow status.
Proof. exact (flag_mask status 1 ltac:(lia)). Qed.

Lemma test_StatDRDY (status : Z) :
  (Z.land status StatDRDY =? StatDRDY) = dataReady status.
Proof. exact (flag_mask status 0 ltac:(lia)). Qed.

Lemma test_StatDOR (status : Z) :
  (Z.land status StatDOR =? StatDOR) = dataSkipped status.
Proof. exact (flag_mask status 2 ltac:(lia)). Qed.

(** ** Two's complement decoding *)

(** C1: for an unsigned 16-bit word [v], [complement2 v] is [v] below
    0x8000 and [v - 65536] from 0x8000 on; it is a signed 16-bit value, and
    converting it back to an unsigned 16-bit word gives [v] again.  The words
    0x0001, 0xFFFF and 0x8000 decode to 1, -1 and -32768. *)
Theorem complement2_decode (v : Z) :
  Int.is_uint16 v ->
  (v < 0x8000 -> complement2 v = v) /\
  (v >= 0x8000 -> complement2 v = v - 65536) /\
  Int.is_int16 (complement2 v) /\
  Int.to_uint16 (complement2 v) = v /\
  complement2 0x0001 = 1 /\
  complement2 0xFFFF = -1 /\
  complement2 0x8000 = -32768.
Proof.
  intros Hv. pose proof Hv as Hr. unfold Int.is_uint16 in Hr.
  split; [| split; [| split; [| split]]].
  - intros Hlt. apply complement2_low. lia.
  - intros Hge. apply complement2_high. lia.
  - unfold complement2. destruct (v >=? 0x8000); apply to_int16_range.
  - now apply to_uint16_complement2.
  - repeat split; reflexivity.
Qed.

Lemma complement2_decode_witness :
  Int.is_uint16 0xFFFE /\ complement2 0xFFFE = -2 /\
  Int.to_uint16 (complement2 0xFFFE) = 0xFFFE.
Proof.
  assert (Hv : Int.is_uint16 0xFFFE) by (unfold Int.is_uint16; lia).
  destruct (complement2_decode 0xFFFE Hv) as (_ & Hhigh & _ & Hback & _).
  split; [exact Hv |]. split; [| exact Hback].
  rewrite Hhigh by lia. reflexivity.
Defined.

(** The end-to-end run behind C1: status 0x01 with the words 0x0001, 0xFFFF
    and 0x8000 gives the sample (1, -1, -32768) and no error, after reading
    the status and the three axis registers in the order X, Y, Z. *)
Example run_end_to_end :
  GetMagnetRaw Mock.driver (Mock.start (Mock.healthy 0x01 0x0001 0xFFFF 0x8000))
  = ((1, -1, -32768, None),
     mkWorld (Mock.healthy 0x01 0x0001 0xFFFF 0x8000)
       [EvReadRegU8 Mock.handle 0x06; EvReadRegU16LE Mock.handle 0x00;
        EvReadRegU16LE Mock.handle 0x02; EvReadRegU16LE Mock.handle 0x04]).
Proof. reflexivity. Qed.

(** ** Running one bus call *)

Section Steps.

Context {W H : Type} {env : I2CEnv W H}.

Lemma run_WriteRegU8 (h : H) (reg val : Z) (w : World W H) :
  bus_WriteRegU8 h reg val w
  = (fst (WriteRegU8 h reg val (dev w)),
     mkWorld (snd (WriteRegU8 h reg val (dev w)))
             (trace w ++ [EvWriteRegU8 h reg val])).
Proof.
  unfold bus_WriteRegU8. now destruct (WriteRegU8 h reg val (dev w)).
Qed.

Lemma run_ReadRegistry (q : QMC5883L H) (reg : Z) (w : World W H) v e d :
  ReadRegU8 (bus q) reg (dev w) = ((v, e), d) ->
  ReadRegistry q reg w
  = ((v, e), mkWorld d (trace w ++ [EvReadRegU8 (bus q) reg])).
Proof.
  intros Hrd. unfold ReadRegistry, bind, bus_ReadRegU8, ret.
  now rewrite Hrd.
Qed.

Lemma run_ReadWord (q : QMC5883L H) (reg : Z) (d : W) (t : list (Event H))
  v e d' :
  ReadRegU16LE (bus q) reg d = ((v, e), d') ->
  ReadWord q reg (mkWorld d t)
  = ((complement2 v, e),
     mkWorld d' (t ++ [EvReadRegU16LE (bus q) reg])).
Proof.
  intros Hrd. unfold ReadWord, bind, bus_ReadRegU16LE, ret.
  cbn [dev trace]. now rewrite Hrd.
Qed.

(** [GetMagnetRaw] after a status read that succeeded, with the three flag
    tests already decided. *)
Lemma GetMagnetRaw_status (q : QMC5883L H) (w : World W H) st d :
  ReadRegU8 (bus q) RegStatus1 (dev w) = ((st, None), d) ->
  let w1 := mkWorld d (trace w ++ [EvReadRegU8 (bus q) RegStatus1]) in
  GetMagnetRaw q w =
  if overflow st then
    (0, 0, 0,
     Some (errorString (if outputRange q =? Rng2G
                        then (msgOverflow ++ msgRangeHint)%string
                        else msgOverflow)), w1)
  else if dataReady st then
    let (rx, w2) := ReadWord q RegXoutLSB w1 in
    match snd rx with
    | Some _ => (fst rx, 0, 0, snd rx, w2)
    | None =>
      let (ry, w3) := ReadWord q RegYoutLSB w2 in
      match snd ry with
      | Some _ => (fst rx, fst ry, 0, snd ry, w3)
      | None =>
        let (rz, w4) := ReadWord q RegZoutLSB w3 in
        (fst rx, fst ry, fst rz, snd rz, w4)
      end
    end
  else if dataSkipped st then
    let (rt, w2) := ReadWord q RegToutLSB w1 in
    (0, 0, 0,
     match snd rt with None => Some errSkipped | Some e => Some e end, w2)
  else (0, 0, 0, None, w1).
Proof.
  intros Hst w1. unfold GetMagnetRaw.
  unfold bind at 1. rewrite (run_ReadRegistry q RegStatus1 w st None d Hst).
  fold w1. rewrite test_StatOVL, test_StatDRDY, test_StatDOR.
  destruct (overflow st); [reflexivity |].
  destruct (dataReady st).
  - unfold bind at 1. destruct (ReadWord q RegXoutLSB w1) as [[x ex] w2].
    destruct ex as [ex |]; [reflexivity |]. cbn [fst snd].
    unfold bind at 1. destruct (ReadWord q RegYoutLSB w2) as [[y ey] w3].
    destruct ey as [ey |]; [reflexivity |]. cbn [fst snd].
    unfold bind at 1. destruct (ReadWord q RegZoutLSB w3) as [[z ez] w4].
    reflexivity.
  - destruct (dataSkipped st); [| reflexivity].
    unfold bind at 1. destruct (ReadWord q RegToutLSB w1) as [[t et] w2].
    destruct et; reflexivity.
Qed.

End Steps.

(** ** Configuration: [SetMode] *)

Section SetModeFacts.

Context {W H : Type} {env : I2CEnv W H}.

Lemma SetMode_run (q : QMC5883L H) (mode odr rng osr : Z) (w : World W H) :
  let val := Z.lor (Z.lor (Z.lor mode odr) rng) osr in
  SetMode q mode odr rng osr w
  = ((mkQMC5883L (i2cBus q) (address q) odr rng osr (bus q),
      fst (WriteRegU8 (bus q) RegControl1 val (dev w))),
     mkWorld (snd (WriteRegU8 (bus q) RegControl1 val (dev w)))
             (trace w ++ [EvWriteRegU8 (bus q) RegControl1 val])).
Proof.
  intros val. unfold SetMode, bind, ret. cbn [bus i2cBus address
    outputDataRate outputRange oversamplingRate].
  fold val. now rewrite run_WriteRegU8.
Qed.

(** C7: for all arguments, [SetMode] issues exactly one bus transaction, the
    write of [mode|odr|rng|osr] to control register 1 at 0x09, and returns
    that write's error.  Every combination of the enumerated values is
    written this way, the four fields occupy separate bits of one byte, and
    the encodings are Standby 0x00, Continuous 0x01; 10Hz 0x00, 50Hz 0x04,
    100Hz 0x08, 200Hz 0x0c; 2G 0x00, 8G 0x10; oversampling 512 0x00,
    256 0x40, 128 0x80, 64 0xc0. *)
Theorem SetMode_writes_control1 :
  (forall (q : QMC5883L H) (mode odr rng osr : Z) (w : World W H),
     let val := Z.lor (Z.lor (Z.lor mode odr) rng) osr in
     trace (snd (SetMode q mode odr rng osr w))
       = trace w ++ [EvWriteRegU8 (bus q) 0x09 val] /\
     dev (snd (SetMode q mode odr rng osr w))
       = snd (WriteRegU8 (bus q) 0x09 val (dev w)) /\
     snd (fst (SetMode q mode odr rng osr w))
       = fst (WriteRegU8 (bus q) 0x09 val (dev w))) /\
  (forall (q : QMC5883L H) (m : Mode) (r : DataRate) (g : Range)
          (o : Oversampling) (w : World W H),
     let val := Z.lor (Z.lor (Z.lor (modeBits m) (rateBits r)) (rangeBits g))
                      (oversamplingBits o) in
     trace (snd (SetMode q (modeBits m) (rateBits r) (rangeBits g)
                         (oversamplingBits o) w))
       = trace w ++ [EvWriteRegU8 (bus q) 0x09 val] /\
     Int.is_byte val /\
     val = modeBits m + rateBits r + rangeBits g + oversamplingBits o) /\
  RegControl1 = 0x09 /\
  (modeBits Standby = 0x00 /\ modeBits Continuous = 0x01) /\
  (rateBits Rate10Hz = 0x00 /\ rateBits Rate50Hz = 0x04 /\
   rateBits Rate100Hz = 0x08 /\ rateBits Rate200Hz = 0x0c) /\
  (rangeBits Gauss2 = 0x00 /\ rangeBits Gauss8 = 0x10) /\
  (oversamplingBits Over512 = 0x00 /\ oversamplingBits Over256 = 0x40 /\
   oversamplingBits Over128 = 0x80 /\ oversamplingBits Over64 = 0xc0).
Proof.
  split; [| split].
  - intros q mode odr rng osr w val. rewrite SetMode_run. fold val.
    cbn [fst snd trace dev]. repeat split; reflexivity.
  - intros q m r g o w val. rewrite SetMode_run. fold val.
    cbn [fst snd trace]. split; [reflexivity |].
    subst val. unfold Int.is_byte.
    destruct m, r, g, o; vm_compute;
      (split; [split; [discriminate | reflexivity] | reflexivity]).
  - repeat split; reflexivity.
Qed.

(** C2, as the code has it: [SetMode] stores the data rate, the range and
    the oversampling rate it was given before it writes, so after every
    call, whether the write to control register 1 failed or not, the stored
    fields are the arguments of the call; the bus number, the address and
    the handle are unchanged. *)
Theorem SetMode_stores_arguments
  (q : QMC5883L H) (mode odr rng osr : Z) (w : World W H) :
  let q' := fst (fst (SetMode q mode odr rng osr w)) in
  outputDataRate q' = odr /\
  outputRange q' = rng /\
  oversamplingRate q' = osr /\
  i2cBus q' = i2cBus q /\ address q' = address q /\ bus q' = bus q.
Proof.
  rewrite SetMode_run. cbn. repeat split; reflexivity.
Qed.

End SetModeFacts.

(** C2 fails as stated: on a bus that rejects the write to control
    register 1, a driver configured for 10Hz, 2 Gauss and oversampling 512
    is left with 200Hz, 8 Gauss and oversampling 64 stored, although the
    call returned the bus error. *)
Lemma failed_write_overwrites_config :
  let q := Mock.driver in
  let r := SetMode q ModeCONT Odr200HZ Rng8G Osr64
             (Mock.start (Mock.failing_write RegControl1)) in
  snd (fst r) = Some Mock.EIO /\
  outputDataRate q = Odr10HZ /\ outputDataRate (fst (fst r)) = Odr200HZ /\
  outputRange q = Rng2G /\ outputRange (fst (fst r)) = Rng8G /\
  oversamplingRate q = Osr512 /\ oversamplingRate (fst (fst r)) = Osr64 /\
  ~ (outputDataRate (fst (fst r)) = outputDataRate q /\
     outputRange (fst (fst r)) = outputRange q /\
     oversamplingRate (fst (fst r)) = oversamplingRate q).
Proof.
  cbv zeta. repeat split; try reflexivity.
  intros (Hodr & _). vm_compute in Hodr. discriminate Hodr.
Qed.

(** ** Reading a sample: [GetMagnetRaw] *)

Lemma overflow_errors_differ : errOverflowHint <> errOverflowPlain.
Proof. intros Heq. vm_compute in Heq. discriminate Heq. Qed.

Lemma classify_priority (st : Z) :
  (overflow st = true -> classify st = Overflow) /\
  (overflow st = false -> dataReady st = true -> classify st = Ready) /\
  (overflow st = false -> dataReady st = false -> dataSkipped st = true ->
   classify st = Skipped) /\
  (overflow st = false -> dataReady st = false -> dataSkipped st = false ->
   classify st = NoneReady).
Proof.
  unfold classify.
  destruct (overflow st), (dataReady st), (dataSkipped st);
    repeat split; intros; congruence.
Qed.

Section GetMagnetRawFacts.

Context {W H : Type} {env : I2CEnv W H}.

Variable q : QMC5883L H.
Variable w : World W H.

(** C4: when the status read succeeds with the overflow bit set, the call
    returns the zero sample with an overflow error after the status read
    alone, so no axis register is read; the error is the one with the advice
    to switch to the wider range exactly when the stored range is [Rng2G],
    and the plain one otherwise. *)
Theorem GetMagnetRaw_overflow (st : Z) (d : W) :
  ReadRegU8 (bus q) RegStatus1 (dev w) = ((st, None), d) ->
  overflow st = true ->
  exists e : error,
    GetMagnetRaw q w
      = ((0, 0, 0, Some e), mkWorld d (trace w ++ [EvReadRegU8 (bus q) 0x06])) /\
    (e = errOverflowHint <-> outputRange q = Rng2G) /\
    (e = errOverflowPlain <-> outputRange q <> Rng2G).
Proof.
  intros Hst Hov. rewrite (GetMagnetRaw_status q w st d Hst), Hov.
  pose proof overflow_errors_differ as Hdiff.
  destruct (Z.eqb_spec (outputRange q) Rng2G) as [Heq | Hne].
  - exists errOverflowHint. split; [reflexivity |].
    split; split; intros; congruence.
  - exists errOverflowPlain. split; [reflexivity |].
    split; split; intros; congruence.
Qed.

(** C8: when the status read succeeds with the overflow, data-ready and
    data-skipped bits all clear, the call returns (0, 0, 0) and no error,
    and the status read is the only bus transaction. *)
Theorem GetMagnetRaw_none_ready (st : Z) (d : W) :
  ReadRegU8 (bus q) RegStatus1 (dev w) = ((st, None), d) ->
  overflow st = false -> dataReady st = false -> dataSkipped st = false ->
  GetMagnetRaw q w
    = ((0, 0, 0, None), mkWorld d (trace w ++ [EvReadRegU8 (bus q) 0x06])).
Proof.
  intros Hst Hov Hrdy Hdor.
  now rewrite (GetMagnetRaw_status q w st d Hst), Hov, Hrdy, Hdor.
Qed.

(** C3, as the code has it: when the status read succeeds with overflow and
    data-ready clear and data-skipped set, the call reads the temperature
    register 0x07 exactly once, as a 16-bit word, and nothing else after the
    status.  If that read succeeds the call returns the data-skipped error;
    if it fails the call returns the error of the read. *)
Theorem GetMagnetRaw_skipped (st : Z) (d : W) (v : Z) (e : option error)
  (d' : W) :
  ReadRegU8 (bus q) RegStatus1 (dev w) = ((st, None), d) ->
  overflow st = false -> dataReady st = false -> dataSkipped st = true ->
  ReadRegU16LE (bus q) RegToutLSB d = ((v, e), d') ->
  GetMagnetRaw q w
    = ((0, 0, 0,
        Some (match e with None => errSkipped | Some be => be end)),
       mkWorld d' (trace w ++ [EvReadRegU8 (bus q) 0x06; EvReadRegU16LE (bus q) 0x07])).
Proof.
  intros Hst Hov Hrdy Hdor Ht.
  rewrite (GetMagnetRaw_status q w st d Hst), Hov, Hrdy, Hdor.
  rewrite (run_ReadWord q RegToutLSB _ _ v e d' Ht). cbn [snd trace].
  rewrite <- app_assoc. now destruct e.
Qed.

(** C5: when the status read succeeds with overflow clear and data-ready
    set, the first axis read that fails ends the call: the registers after it
    are not read, the error of the failed read is returned, the coordinates
    read before it are decoded, the coordinates after it are zero, and the
    failed coordinate is the decoding of the word that came with the error
    (zero for a zero word).  A failed X read therefore never gives an
    error-free result. *)
Theorem GetMagnetRaw_axis_failure (st : Z) (d : W) :
  ReadRegU8 (bus q) RegStatus1 (dev w) = ((st, None), d) ->
  overflow st = false -> dataReady st = true ->
  (forall v e d2,
     ReadRegU16LE (bus q) RegXoutLSB d = ((v, Some e), d2) ->
     GetMagnetRaw q w
       = ((complement2 v, 0, 0, Some e),
          mkWorld d2 (trace w ++ [EvReadRegU8 (bus q) 0x06; EvReadRegU16LE (bus q) 0x00]))) /\
  (forall vx d2 v e d3,
     ReadRegU16LE (bus q) RegXoutLSB d = ((vx, None), d2) ->
     ReadRegU16LE (bus q) RegYoutLSB d2 = ((v, Some e), d3) ->
     GetMagnetRaw q w
       = ((complement2 vx, complement2 v, 0, Some e),
          mkWorld d3 (trace w ++ [EvReadRegU8 (bus q) 0x06; EvReadRegU16LE (bus q) 0x00;
                                  EvReadRegU16LE (bus q) 0x02]))) /\
  (forall vx d2 vy d3 v e d4,
     ReadRegU16LE (bus q) RegXoutLSB d = ((vx, None), d2) ->
     ReadRegU16LE (bus q) RegYoutLSB d2 = ((vy, None), d3) ->
     ReadRegU16LE (bus q) RegZoutLSB d3 = ((v, Some e), d4) ->
     GetMagnetRaw q w
       = ((complement2 vx, complement2 vy, complement2 v, Some e),
          mkWorld d4 (trace w ++ [EvReadRegU8 (bus q) 0x06; EvReadRegU16LE (bus q) 0x00;
                                  EvReadRegU16LE (bus q) 0x02; EvReadRegU16LE (bus q) 0x04]))) /\
  complement2 0 = 0.
Proof.
  intros Hst Hov Hrdy.
  rewrite (GetMagnetRaw_status q w st d Hst), Hov, Hrdy.
  split; [| split; [| split]].
  - intros v e d2 Hx.
    rewrite (run_ReadWord q RegXoutLSB _ _ v (Some e) d2 Hx).
    cbn [fst snd trace]. now rewrite <- app_assoc.
  - intros vx d2 v e d3 Hx Hy.
    rewrite (run_ReadWord q RegXoutLSB _ _ vx None d2 Hx). cbn [fst snd].
    rewrite (run_ReadWord q RegYoutLSB _ _ v (Some e) d3 Hy).
    cbn [fst snd trace]. now rewrite <- !app_assoc.
  - intros vx d2 vy d3 v e d4 Hx Hy Hz.
    rewrite (run_ReadWord q RegXoutLSB _ _ vx None d2 Hx). cbn [fst snd].
    rewrite (run_ReadWord q RegYoutLSB _ _ vy None d3 Hy). cbn [fst snd].
    rewrite (run_ReadWord q RegZoutLSB _ _ v (Some e) d4 Hz).
    cbn [fst snd trace]. now rewrite <- !app_assoc.
  - reflexivity.
Qed.

(** When all three axis reads succeed the decoded triple is returned without
    an error. *)
Lemma all_axes_read (st : Z) (d : W) vx d2 vy d3 vz d4 :
  ReadRegU8 (bus q) RegStatus1 (dev w) = ((st, None), d) ->
  overflow st = false -> dataReady st = true ->
  ReadRegU16LE (bus q) RegXoutLSB d = ((vx, None), d2) ->
  ReadRegU16LE (bus q) RegYoutLSB d2 = ((vy, None), d3) ->
  ReadRegU16LE (bus q) RegZoutLSB d3 = ((vz, None), d4) ->
  GetMagnetRaw q w
    = ((complement2 vx, complement2 vy, complement2 vz, None),
       mkWorld d4 (trace w ++ [EvReadRegU8 (bus q) 0x06; EvReadRegU16LE (bus q) 0x00; EvReadRegU16LE (bus q) 0x02;
                               EvReadRegU16LE (bus q) 0x04])).
Proof.
  intros Hst Hov Hrdy Hx Hy Hz.
  rewrite (GetMagnetRaw_status q w st d Hst), Hov, Hrdy.
  rewrite (run_ReadWord q RegXoutLSB _ _ vx None d2 Hx). cbn [fst snd].
  rewrite (run_ReadWord q RegYoutLSB _ _ vy None d3 Hy). cbn [fst snd].
  rewrite (run_ReadWord q RegZoutLSB _ _ vz None d4 Hz).
  cbn [fst snd trace]. now rewrite <- !app_assoc.
Qed.

(** The transactions of the data-ready branch after the status read: the X
    read, then at most the Y and the Z read. *)
Lemma ready_branch_trace (st : Z) (d : W) :
  ReadRegU8 (bus q) RegStatus1 (dev w) = ((st, None), d) ->
  overflow st = false -> dataReady st = true ->
  exists rest,
    trace (snd (GetMagnetRaw q w))
      = trace w ++ EvReadRegU8 (bus q) 0x06
                   :: EvReadRegU16LE (bus q) 0x00 :: rest /\
    (rest = [] \/ rest = [EvReadRegU16LE (bus q) 0x02] \/
     rest = [EvReadRegU16LE (bus q) 0x02; EvReadRegU16LE (bus q) 0x04]).
Proof.
  intros Hst Hov Hrdy.
  rewrite (GetMagnetRaw_status q w st d Hst), Hov, Hrdy.
  destruct (ReadRegU16LE (bus q) RegXoutLSB d) as [[vx ex] d2] eqn:Hx.
  rewrite (run_ReadWord q RegXoutLSB _ _ vx ex d2 Hx). cbn [fst snd].
  destruct ex as [ex |].
  { exists []. cbn [snd trace]. rewrite <- app_assoc.
    split; [reflexivity | now left]. }
  destruct (ReadRegU16LE (bus q) RegYoutLSB d2) as [[vy ey] d3] eqn:Hy.
  rewrite (run_ReadWord q RegYoutLSB _ _ vy ey d3 Hy). cbn [fst snd].
  destruct ey as [ey |].
  { exists [EvReadRegU16LE (bus q) 0x02]. cbn [snd trace].
    rewrite <- !app_assoc. split; [reflexivity | now right; left]. }
  destruct (ReadRegU16LE (bus q) RegZoutLSB d3) as [[vz ez] d4] eqn:Hz.
  rewrite (run_ReadWord q RegZoutLSB _ _ vz ez d4 Hz).
  exists [EvReadRegU16LE (bus q) 0x02; EvReadRegU16LE (bus q) 0x04].
  cbn [snd trace]. rewrite <- !app_assoc.
  split; [reflexivity | now right; right].
Qed.

(** C6: after a successful status read the call is decided by the first
    flag that is set in the order overflow, data-ready, data-skipped, whatever
    the later flags are, and the class fixes the whole result.  With overflow
    set the call returns the overflow error after the status read alone.
    Otherwise with data-ready set it reads X, Y and Z in this order, stops at
    the first read that fails, and returns the decoded coordinates with the
    error of the last read made, never touching the temperature register.
    Otherwise with data-skipped set it reads the temperature register and
    returns the data-skipped error, or the error of that read.  With no flag
    set it returns the zero sample and no error after the status read alone.
    So the status 0x03 (overflow and data-ready) is an overflow and the
    status 0x05 (data-ready and data-skipped) is a data-ready read. *)
Theorem GetMagnetRaw_priority (st : Z) (d : W) :
  ReadRegU8 (bus q) RegStatus1 (dev w) = ((st, None), d) ->
  match classify st with
  | Overflow =>
      GetMagnetRaw q w
        = ((0, 0, 0,
            Some (if outputRange q =? Rng2G
                  then errOverflowHint else errOverflowPlain)),
           mkWorld d (trace w ++ [EvReadRegU8 (bus q) 0x06]))
  | Ready =>
      let '((vx, ex), d2) := ReadRegU16LE (bus q) RegXoutLSB d in
      let '((vy, ey), d3) := ReadRegU16LE (bus q) RegYoutLSB d2 in
      let '((vz, ez), d4) := ReadRegU16LE (bus q) RegZoutLSB d3 in
      GetMagnetRaw q w
        = match ex, ey with
          | Some _, _ =>
              ((complement2 vx, 0, 0, ex),
               mkWorld d2 (trace w ++ [EvReadRegU8 (bus q) 0x06;
                                       EvReadRegU16LE (bus q) 0x00]))
          | None, Some _ =>
              ((complement2 vx, complement2 vy, 0, ey),
               mkWorld d3 (trace w ++ [EvReadRegU8 (bus q) 0x06;
                                       EvReadRegU16LE (bus q) 0x00;
                                       EvReadRegU16LE (bus q) 0x02]))
          | None, None =>
              ((complement2 vx, complement2 vy, complement2 vz, ez),
               mkWorld d4 (trace w ++ [EvReadRegU8 (bus q) 0x06;
                                       EvReadRegU16LE (bus q) 0x00;
                                       EvReadRegU16LE (bus q) 0x02;
                                       EvReadRegU16LE (bus q) 0x04]))
          end
  | Skipped =>
      let '((vt, et), d2) := ReadRegU16LE (bus q) RegToutLSB d in
      GetMagnetRaw q w
        = ((0, 0, 0,
            Some (match et with None => errSkipped | Some e => e end)),
           mkWorld d2 (trace w ++ [EvReadRegU8 (bus q) 0x06;
                                   EvReadRegU16LE (bus q) 0x07]))
  | NoneReady =>
      GetMagnetRaw q w
        = ((0, 0, 0, None),
           mkWorld d (trace w ++ [EvReadRegU8 (bus q) 0x06]))
  end /\
  (overflow st = true -> classify st = Overflow) /\
  (overflow st = false -> dataReady st = true -> classify st = Ready) /\
  (overflow st = false -> dataReady st = false -> dataSkipped st = true ->
   classify st = Skipped) /\
  (overflow st = false -> dataReady st = false -> dataSkipped st = false ->
   classify st = NoneReady) /\
  classify 0x03 = Overflow /\ classify 0x05 = Ready.
Proof.
  intros Hst. split.
  - unfold classify. rewrite (GetMagnetRaw_status q w st d Hst).
    destruct (overflow st).
    { now destruct (outputRange q =? Rng2G). }
    destruct (dataReady st).
    { destruct (ReadRegU16LE (bus q) RegXoutLSB d) as [[vx ex] d2] eqn:Hx.
      destruct (ReadRegU16LE (bus q) RegYoutLSB d2) as [[vy ey] d3] eqn:Hy.
      destruct (ReadRegU16LE (bus q) RegZoutLSB d3) as [[vz ez] d4] eqn:Hz.
      rewrite (run_ReadWord q RegXoutLSB _ _ vx ex d2 Hx). cbn [fst snd].
      destruct ex as [ex |].
      { cbn [trace]. now rewrite <- app_assoc. }
      rewrite (run_ReadWord q RegYoutLSB _ _ vy ey d3 Hy). cbn [fst snd].
      destruct ey as [ey |].
      { cbn [trace]. now rewrite <- !app_assoc. }
      rewrite (run_ReadWord q RegZoutLSB _ _ vz ez d4 Hz).
      cbn [fst snd trace]. now rewrite <- !app_assoc. }
    destruct (dataSkipped st); [| reflexivity].
    destruct (ReadRegU16LE (bus q) RegToutLSB d) as [[vt et] d2] eqn:Ht.
    rewrite (run_ReadWord q RegToutLSB _ _ vt et d2 Ht).
    cbn [fst snd trace]. rewrite <- app_assoc. now destruct et.
  - pose proof (classify_priority st) as (H1 & H2 & H3 & H4).
    repeat split; assumption || reflexivity.
Qed.

End GetMagnetRawFacts.

Lemma GetMagnetRaw_overflow_witness :
  let c := Mock.healthy 0x03 0x0001 0xFFFF 0x8000 in
  overflow 0x03 = true /\
  exists e,
    GetMagnetRaw Mock.driver (Mock.start c)
      = ((0, 0, 0, Some e), mkWorld c [EvReadRegU8 Mock.handle 0x06]) /\
    (e = errOverflowHint <-> outputRange Mock.driver = Rng2G) /\
    (e = errOverflowPlain <-> outputRange Mock.driver <> Rng2G).
Proof.
  intros c. split; [reflexivity |].
  exact (GetMagnetRaw_overflow Mock.driver (Mock.start c) 0x03 c
           eq_refl eq_refl).
Defined.

Lemma GetMagnetRaw_none_ready_witness :
  let c := Mock.healthy 0x00 0x0001 0xFFFF 0x8000 in
  (overflow 0 = false /\ dataReady 0 = false /\ dataSkipped 0 = false) /\
  GetMagnetRaw Mock.driver (Mock.start c)
    = ((0, 0, 0, None), mkWorld c [EvReadRegU8 Mock.handle 0x06]).
Proof.
  intros c. split; [repeat split |].
  exact (GetMagnetRaw_none_ready Mock.driver (Mock.start c) 0x00 c
           eq_refl eq_refl eq_refl eq_refl).
Defined.

Lemma GetMagnetRaw_skipped_witness :
  let c := Mock.failing_word 0x04 RegToutLSB in
  (overflow 4 = false /\ dataReady 4 = false /\ dataSkipped 4 = true) /\
  GetMagnetRaw Mock.driver (Mock.start c)
    = ((0, 0, 0, Some Mock.EIO),
       mkWorld c [EvReadRegU8 Mock.handle 0x06;
                  EvReadRegU16LE Mock.handle 0x07]).
Proof.
  intros c. split; [repeat split |].
  exact (GetMagnetRaw_skipped Mock.driver (Mock.start c) 0x04 c
           0 (Some Mock.EIO) c eq_refl eq_refl eq_refl eq_refl eq_refl).
Defined.

(** C3 fails as stated: with only the data-skipped bit set, a chip whose
    temperature read fails makes the call return the bus error of that read,
    not the data-skipped error that the same status gives when the read
    succeeds. *)
Lemma discard_failure_changes_result :
  let bad := Mock.failing_word 0x04 RegToutLSB in
  let good := Mock.healthy 0x04 0 0 0 in
  snd (fst (GetMagnetRaw Mock.driver (Mock.start good))) = Some errSkipped /\
  snd (fst (GetMagnetRaw Mock.driver (Mock.start bad))) = Some Mock.EIO /\
  snd (fst (GetMagnetRaw Mock.driver (Mock.start bad))) <> Some errSkipped /\
  trace (snd (GetMagnetRaw Mock.driver (Mock.start bad)))
    = [EvReadRegU8 Mock.handle 0x06; EvReadRegU16LE Mock.handle 0x07].
Proof.
  cbv zeta. repeat split. intros Heq. vm_compute in Heq. discriminate Heq.
Qed.

Lemma GetMagnetRaw_axis_failure_witness :
  let c := Mock.failing_word 0x01 RegXoutLSB in
  (overflow 1 = false /\ dataReady 1 = true) /\
  GetMagnetRaw Mock.driver (Mock.start c)
    = ((0, 0, 0, Some Mock.EIO),
       mkWorld c [EvReadRegU8 Mock.handle 0x06;
                  EvReadRegU16LE Mock.handle 0x00]).
Proof.
  intros c. split; [repeat split |].
  exact (proj1 (GetMagnetRaw_axis_failure Mock.driver (Mock.start c) 0x01 c
                  eq_refl eq_refl eq_refl)
           0 Mock.EIO c eq_refl).
Defined.

Lemma GetMagnetRaw_priority_witness :
  let c5 := Mock.healthy 0x05 0x0001 0xFFFF 0x8000 in
  let c3 := Mock.healthy 0x03 0x0001 0xFFFF 0x8000 in
  (classify 0x05 = Ready /\
   GetMagnetRaw Mock.driver (Mock.start c5)
     = ((1, -1, -32768, None),
        mkWorld c5 [EvReadRegU8 Mock.handle 0x06;
                    EvReadRegU16LE Mock.handle 0x00;
                    EvReadRegU16LE Mock.handle 0x02;
                    EvReadRegU16LE Mock.handle 0x04])) /\
  (classify 0x03 = Overflow /\
   GetMagnetRaw Mock.driver (Mock.start c3)
     = ((0, 0, 0, Some errOverflowHint),
        mkWorld c3 [EvReadRegU8 Mock.handle 0x06])).
Proof.
  intros c5 c3. split; (split; [reflexivity |]).
  - exact (proj1 (GetMagnetRaw_priority Mock.driver (Mock.start c5) 0x05 c5
                    eq_refl)).
  - exact (proj1 (GetMagnetRaw_priority Mock.driver (Mock.start c3) 0x03 c3
                    eq_refl)).
Defined.

(** Further runs of the priority chain on the scripted bus. *)
Example run_status_overflow_and_ready :
  GetMagnetRaw Mock.driver
    (Mock.start (Mock.healthy 0x03 0x0001 0xFFFF 0x8000))
  = ((0, 0, 0, Some errOverflowHint),
     mkWorld (Mock.healthy 0x03 0x0001 0xFFFF 0x8000)
       [EvReadRegU8 Mock.handle 0x06]).
Proof. reflexivity. Qed.

Example run_status_all_flags_8G :
  fst (GetMagnetRaw
         (mkQMC5883L DfltBus DfltAddress Odr200HZ Rng8G Osr512 Mock.handle)
         (Mock.start (Mock.healthy 0x07 0x0001 0xFFFF 0x8000)))
  = (0, 0, 0, Some errOverflowPlain).
Proof. reflexivity. Qed.

Example run_status_ready_and_skipped :
  GetMagnetRaw Mock.driver
    (Mock.start (Mock.healthy 0x05 0x0001 0xFFFF 0x8000))
  = ((1, -1, -32768, None),
     mkWorld (Mock.healthy 0x05 0x0001 0xFFFF 0x8000)
       [EvReadRegU8 Mock.handle 0x06; EvReadRegU16LE Mock.handle 0x00;
        EvReadRegU16LE Mock.handle 0x02; EvReadRegU16LE Mock.handle 0x04]).
Proof. reflexivity. Qed.

Example run_status_ready_Y_fails :
  GetMagnetRaw Mock.driver (Mock.start (Mock.failing_word 0x01 RegYoutLSB))
  = ((0x0102, 0, 0, Some Mock.EIO),
     mkWorld (Mock.failing_word 0x01 RegYoutLSB)
       [EvReadRegU8 Mock.handle 0x06; EvReadRegU16LE Mock.handle 0x00;
        EvReadRegU16LE Mock.handle 0x02]).
Proof. reflexivity. Qed.

(** ** Construction: [New] *)

Section NewFacts.

Context {W H : Type} {env : I2CEnv W H}.

(** [New] unfolded once for each way it can end. *)
Lemma New_run (busno addr : Z) (w : World W H) :
  let b := effectiveBus busno in
  let a := effectiveAddress addr in
  let o := NewI2C a b (dev w) in
  let h := fst (fst o) in
  let w1 := mkWorld (snd o) (trace w ++ [EvNewI2C a b]) in
  let r1 := bus_WriteRegU8 h RegRstPeriod 0x01 w1 in
  let r2 := bus_WriteRegU8 h RegControl2 SoftRst (snd r1) in
  let r3 := SetMode (mkQMC5883L b a Odr10HZ Rng2G Osr512 h)
                    ModeCONT Odr10HZ Rng2G Osr512 (snd r2) in
  New busno addr w =
  match snd (fst o) with
  | Some e => (Fatal e, w1)
  | None =>
    match fst r1 with
    | Some e => (Fatal e, snd r1)
    | None =>
      match fst r2 with
      | Some e => (Fatal e, snd r2)
      | None => (Returned (fst (fst r3)), snd r3)
      end
    end
  end.
Proof.
  cbv zeta. unfold New, effectiveBus, effectiveAddress.
  unfold bind at 1. unfold i2c_NewI2C.
  destruct (NewI2C _ _ (dev w)) as [[h0 e0] d0]. cbn [fst snd].
  destruct e0 as [e0 |]; [reflexivity |].
  unfold bind at 1.
  destruct (bus_WriteRegU8 h0 RegRstPeriod 1 _) as [e1 w1]. cbn [fst snd].
  destruct e1 as [e1 |]; [reflexivity |].
  unfold bind at 1.
  destruct (bus_WriteRegU8 h0 RegControl2 SoftRst w1) as [e2 w2].
  cbn [fst snd]. destruct e2 as [e2 |]; [reflexivity |].
  unfold bind at 1. cbn [outputDataRate outputRange oversamplingRate].
  destruct (SetMode _ ModeCONT Odr10HZ Rng2G Osr512 w2) as [[q3 e3] w3].
  reflexivity.
Qed.

(** [New] returns a driver whenever the bus opens and the two reset writes
    succeed; the result of the configuration write does not matter. *)
Lemma New_returns (busno addr : Z) (w : World W H) h d1 d2 d3 :
  NewI2C (effectiveAddress addr) (effectiveBus busno) (dev w)
    = ((h, None), d1) ->
  WriteRegU8 h RegRstPeriod 0x01 d1 = (None, d2) ->
  WriteRegU8 h RegControl2 SoftRst d2 = (None, d3) ->
  exists w',
    New busno addr w
      = (Returned (mkQMC5883L (effectiveBus busno) (effectiveAddress addr)
                              Odr10HZ Rng2G Osr512 h), w').
Proof.
  intros Hopen Hw1 Hw2.
  pose proof (New_run busno addr w) as Hrun. cbv zeta in Hrun.
  rewrite Hopen in Hrun. cbn [fst snd] in Hrun.
  rewrite run_WriteRegU8 in Hrun. cbn [dev trace fst snd] in Hrun.
  rewrite Hw1 in Hrun. cbn [fst snd] in Hrun.
  rewrite run_WriteRegU8 in Hrun. cbn [dev trace fst snd] in Hrun.
  rewrite Hw2 in Hrun. cbn [fst snd] in Hrun.
  rewrite SetMode_run in Hrun. cbn [fst snd i2cBus address bus] in Hrun.
  eexists. exact Hrun.
Qed.

(** C9: a call of [New] that returns a driver has issued, after opening the
    bus, exactly three writes in this order: 0x01 to the SET/RESET period
    register 0x0b, the soft-reset bit 0x80 to control register 2 at 0x0a,
    and the write of control register 1 at 0x09 made by [SetMode] called
    with continuous mode, 10Hz, 2 Gauss and oversampling 512, whose byte is
    0x01.  The driver returned stores that configuration. *)
Theorem New_sequence (busno addr : Z) (w : World W H) (q : QMC5883L H)
  (w' : World W H) :
  New busno addr w = (Returned q, w') ->
  trace w' = trace w ++ [EvNewI2C (address q) (i2cBus q);
                         EvWriteRegU8 (bus q) 0x0b 0x01;
                         EvWriteRegU8 (bus q) 0x0a 0x80;
                         EvWriteRegU8 (bus q) 0x09 0x01] /\
  (exists (q0 : QMC5883L H) (w2 : World W H) (err : option error),
     trace w2 = trace w ++ [EvNewI2C (address q) (i2cBus q);
                            EvWriteRegU8 (bus q) RegRstPeriod 0x01;
                            EvWriteRegU8 (bus q) RegControl2 SoftRst] /\
     SetMode q0 (modeBits Continuous) (rateBits Rate10Hz) (rangeBits Gauss2)
             (oversamplingBits Over512) w2 = ((q, err), w')) /\
  outputDataRate q = Odr10HZ /\ outputRange q = Rng2G /\
  oversamplingRate q = Osr512.
Proof.
  intros Hnew.
  pose proof (New_run busno addr w) as Hrun. cbv zeta in Hrun.
  rewrite Hrun in Hnew. clear Hrun.
  destruct (NewI2C (effectiveAddress addr) (effectiveBus busno) (dev w))
    as [[h e0] d0].
  cbn [fst snd] in Hnew. destruct e0 as [e0 |]; [discriminate Hnew |].
  rewrite run_WriteRegU8 in Hnew. cbn [dev trace fst snd] in Hnew.
  destruct (WriteRegU8 h RegRstPeriod 1 d0) as [e1 d1].
  cbn [fst snd] in Hnew. destruct e1 as [e1 |]; [discriminate Hnew |].
  rewrite run_WriteRegU8 in Hnew. cbn [dev trace fst snd] in Hnew.
  destruct (WriteRegU8 h RegControl2 SoftRst d1) as [e2 d2].
  cbn [fst snd] in Hnew. destruct e2 as [e2 |]; [discriminate Hnew |].
  set (q0 := mkQMC5883L (effectiveBus busno) (effectiveAddress addr)
                        Odr10HZ Rng2G Osr512 h) in Hnew.
  match type of Hnew with
  | context [SetMode q0 _ _ _ _ ?v] => set (w2 := v) in Hnew
  end.
  pose proof (SetMode_run q0 ModeCONT Odr10HZ Rng2G Osr512 w2) as Hset.
  cbv zeta in Hset.
  destruct (SetMode q0 ModeCONT Odr10HZ Rng2G Osr512 w2) as [[q3 e3] w3] eqn:Hs.
  cbn [fst snd] in Hnew. injection Hnew as Hq Hw. subst q3 w3.
  injection Hset as Hq He Hw'. subst q w'. cbn [trace i2cBus address bus
    outputDataRate outputRange oversamplingRate].
  split; [| split].
  - subst w2 q0. cbn [trace bus]. rewrite <- !app_assoc. reflexivity.
  - exists q0, w2, e3. split.
    + subst w2. cbn [trace]. rewrite <- !app_assoc. reflexivity.
    + exact Hs.
  - repeat split; reflexivity.
Qed.

(** C10: [New] opens the bus, as its first transaction and only once, with
    bus number 1 in place of 0 and address 0x0d in place of 0, and with any
    other bus number and address as given; a driver it returns stores that
    bus number and address and the handle the open gave, and it does return
    such a driver whenever the open and the two reset writes succeed. *)
Theorem New_defaults (busno addr : Z) (w : World W H) :
  (exists rest,
     trace (snd (New busno addr w))
       = trace w ++ EvNewI2C (effectiveAddress addr) (effectiveBus busno)
                    :: rest /\
     Forall (fun ev => forall a b, ev <> EvNewI2C a b) rest) /\
  match fst (New busno addr w) with
  | Returned q =>
      i2cBus q = effectiveBus busno /\
      address q = effectiveAddress addr /\
      bus q = fst (fst (NewI2C (effectiveAddress addr) (effectiveBus busno)
                               (dev w)))
  | Fatal _ => True
  end /\
  (forall h d1 d2 d3,
     NewI2C (effectiveAddress addr) (effectiveBus busno) (dev w)
       = ((h, None), d1) ->
     WriteRegU8 h RegRstPeriod 0x01 d1 = (None, d2) ->
     WriteRegU8 h RegControl2 SoftRst d2 = (None, d3) ->
     exists q w',
       New busno addr w = (Returned q, w') /\
       i2cBus q = effectiveBus busno /\
       address q = effectiveAddress addr /\
       bus q = h) /\
  effectiveBus 0 = 1 /\ effectiveAddress 0 = 0x0d /\
  (busno <> 0 -> effectiveBus busno = busno) /\
  (addr <> 0 -> effectiveAddress addr = addr).
Proof.
  split; [| split; [| split]].
  - pose proof (New_run busno addr w) as Hrun. cbv zeta in Hrun.
    rewrite Hrun. clear Hrun.
    destruct (NewI2C (effectiveAddress addr) (effectiveBus busno) (dev w))
      as [[h e0] d0].
    cbn [fst snd]. destruct e0 as [e0 |].
    { exists []. split; [reflexivity | constructor]. }
    rewrite run_WriteRegU8. cbn [dev trace fst snd].
    destruct (WriteRegU8 h RegRstPeriod 1 d0) as [e1 d1].
    cbn [fst snd]. destruct e1 as [e1 |].
    { exists [EvWriteRegU8 h RegRstPeriod 1]. cbn [trace snd].
      rewrite <- app_assoc. split; [reflexivity |].
      repeat constructor; discriminate. }
    rewrite run_WriteRegU8. cbn [dev trace fst snd].
    destruct (WriteRegU8 h RegControl2 SoftRst d1) as [e2 d2].
    cbn [fst snd]. destruct e2 as [e2 |].
    { exists [EvWriteRegU8 h RegRstPeriod 1;
              EvWriteRegU8 h RegControl2 SoftRst]. cbn [trace snd].
      rewrite <- !app_assoc. split; [reflexivity |].
      repeat constructor; discriminate. }
    rewrite SetMode_run. cbn [trace snd bus].
    exists [EvWriteRegU8 h RegRstPeriod 1;
            EvWriteRegU8 h RegControl2 SoftRst;
            EvWriteRegU8 h RegControl1
              (Z.lor (Z.lor (Z.lor ModeCONT Odr10HZ) Rng2G) Osr512)].
    rewrite <- !app_assoc. split; [reflexivity |].
    repeat constructor; discriminate.
  - pose proof (New_run busno addr w) as Hrun. cbv zeta in Hrun.
    rewrite Hrun. clear Hrun.
    destruct (NewI2C (effectiveAddress addr) (effectiveBus busno) (dev w))
      as [[h e0] d0].
    cbn [fst snd]. destruct e0 as [e0 |]; [exact I |].
    destruct (fst (bus_WriteRegU8 h RegRstPeriod 1 _)); [exact I |].
    destruct (fst (bus_WriteRegU8 h RegControl2 SoftRst _)); [exact I |].
    rewrite SetMode_run. cbn. repeat split; reflexivity.
  - intros h d1 d2 d3 Hopen Hw1 Hw2.
    destruct (New_returns busno addr w h d1 d2 d3 Hopen Hw1 Hw2)
      as (w' & Hnew).
    eexists. exists w'. split; [exact Hnew |]. repeat split; reflexivity.
  - unfold effectiveBus, effectiveAddress. repeat split.
    + intros Hne. now destruct (Z.eqb_spec busno 0).
    + intros Hne. now destruct (Z.eqb_spec addr 0).
Qed.

End NewFacts.

Lemma New_defaults_witness :
  let c := Mock.healthy 0x00 0 0 0 in
  (fst (New 0 0 (Mock.start c))
     = Returned (mkQMC5883L 1 0x0d Odr10HZ Rng2G Osr512 (0x0d, 1)) /\
   exists rest,
     trace (snd (New 0 0 (Mock.start c))) = EvNewI2C 0x0d 1 :: rest) /\
  (fst (New 2 0x1e (Mock.start c))
     = Returned (mkQMC5883L 2 0x1e Odr10HZ Rng2G Osr512 (0x1e, 2)) /\
   exists q w',
     New 2 0x1e (Mock.start c) = (Returned q, w') /\
     i2cBus q = 2 /\ address q = 0x1e /\ bus q = (0x1e, 2)).
Proof.
  intros c. split; (split; [reflexivity |]).
  - destruct (proj1 (New_defaults 0 0 (Mock.start c))) as (rest & Htr & _).
    exists rest. exact Htr.
  - exact (proj1 (proj2 (proj2 (New_defaults 2 0x1e (Mock.start c))))
             (0x1e, 2) c c c eq_refl eq_refl eq_refl).
Defined.

Lemma New_sequence_witness :
  let c := Mock.healthy 0x00 0 0 0 in
  New 0 0 (Mock.start c) = (Returned Mock.driver,
    mkWorld c [EvNewI2C 0x0d 1; EvWriteRegU8 Mock.handle 0x0b 0x01;
               EvWriteRegU8 Mock.handle 0x0a 0x80;
               EvWriteRegU8 Mock.handle 0x09 0x01]) /\
  trace (snd (New 0 0 (Mock.start c)))
    = [EvNewI2C 0x0d 1; EvWriteRegU8 Mock.handle 0x0b 0x01;
       EvWriteRegU8 Mock.handle 0x0a 0x80;
       EvWriteRegU8 Mock.handle 0x09 0x01].
Proof.
  intros c. split; [reflexivity |].
  exact (proj1 (New_sequence 0 0 (Mock.start c) Mock.driver
                  (snd (New 0 0 (Mock.start c))) eq_refl)).
Defined.

(** Runs of [New] on the scripted bus: a rejected configuration write still
    returns a driver, a rejected reset write or a bus that does not open
    ends the process. *)
Example New_config_write_fails :
  New 2 0x1e (Mock.start (Mock.failing_write RegControl1))
  = (Returned (mkQMC5883L 2 0x1e Odr10HZ Rng2G Osr512 (0x1e, 2)),
     mkWorld (Mock.failing_write RegControl1)
       [EvNewI2C 0x1e 2; EvWriteRegU8 (0x1e, 2) 0x0b 0x01;
        EvWriteRegU8 (0x1e, 2) 0x0a 0x80; EvWriteRegU8 (0x1e, 2) 0x09 0x01]).
Proof. reflexivity. Qed.

Example New_reset_write_fails :
  New 0 0 (Mock.start (Mock.failing_write RegControl2))
  = (Fatal Mock.EIO,
     mkWorld (Mock.failing_write RegControl2)
       [EvNewI2C 0x0d 1; EvWriteRegU8 Mock.handle 0x0b 0x01;
        EvWriteRegU8 Mock.handle 0x0a 0x80]).
Proof. reflexivity. Qed.

Example New_bus_absent :
  New 0 0 (Mock.start Mock.absent)
  = (Fatal Mock.EIO, mkWorld Mock.absent [EvNewI2C 0x0d 1]).
Proof. reflexivity. Qed.

(** ** Further properties of the reads *)

Lemma complement2_range (v : Z) : Int.is_int16 (complement2 v).
Proof. unfold complement2. destruct (v >=? 0x8000); apply to_int16_range. Qed.

Lemma complement2_sign (v : Z) :
  Int.is_uint16 v -> (complement2 v < 0 <-> 0x8000 <= v).
Proof.
  unfold Int.is_uint16. intros Hv.
  destruct (Z_lt_ge_dec v 0x8000) as [Hlt | Hge].
  - rewrite complement2_low by lia. lia.
  - rewrite complement2_high by lia. lia.
Qed.

Section ReadFacts.

Context {W H : Type} {env : I2CEnv W H}.

Variable q : QMC5883L H.
Variable w : World W H.

(** [GetMagnetRaw] after a status read that failed. *)
Lemma GetMagnetRaw_status_err (st : Z) (e : error) (d : W) :
  ReadRegU8 (bus q) RegStatus1 (dev w) = ((st, Some e), d) ->
  GetMagnetRaw q w
    = ((0, 0, 0, Some e),
       mkWorld d (trace w ++ [EvReadRegU8 (bus q) RegStatus1])).
Proof.
  intros Hst. unfold GetMagnetRaw. unfold bind at 1.
  now rewrite (run_ReadRegistry q RegStatus1 w st (Some e) d Hst).
Qed.

(** The transactions of one call, whatever the bus answers. *)
Lemma GetMagnetRaw_trace_cases :
  exists evs,
    trace (snd (GetMagnetRaw q w))
      = trace w ++ EvReadRegU8 (bus q) RegStatus1 :: evs /\
    (evs = [] \/
     evs = [EvReadRegU16LE (bus q) RegXoutLSB] \/
     evs = [EvReadRegU16LE (bus q) RegXoutLSB;
            EvReadRegU16LE (bus q) RegYoutLSB] \/
     evs = [EvReadRegU16LE (bus q) RegXoutLSB;
            EvReadRegU16LE (bus q) RegYoutLSB;
            EvReadRegU16LE (bus q) RegZoutLSB] \/
     evs = [EvReadRegU16LE (bus q) RegToutLSB]).
Proof.
  destruct (ReadRegU8 (bus q) RegStatus1 (dev w)) as [[st e] d] eqn:Hst.
  destruct e as [e |].
  { rewrite (GetMagnetRaw_status_err st e d Hst). exists []. now split; [| left]. }
  rewrite (GetMagnetRaw_status q w st d Hst).
  destruct (overflow st). { exists []. now split; [| left]. }
  destruct (dataReady st).
  - destruct (ReadRegU16LE (bus q) RegXoutLSB d) as [[vx ex] d2] eqn:Hx.
    rewrite (run_ReadWord q RegXoutLSB _ _ vx ex d2 Hx). cbn [fst snd].
    destruct ex as [ex |].
    { eexists. cbn [snd trace]. rewrite <- app_assoc.
      split; [reflexivity | now right; left]. }
    destruct (ReadRegU16LE (bus q) RegYoutLSB d2) as [[vy ey] d3] eqn:Hy.
    rewrite (run_ReadWord q RegYoutLSB _ _ vy ey d3 Hy). cbn [fst snd].
    destruct ey as [ey |].
    { eexists. cbn [snd trace]. rewrite <- !app_assoc.
      split; [reflexivity | now right; right; left]. }
    destruct (ReadRegU16LE (bus q) RegZoutLSB d3) as [[vz ez] d4] eqn:Hz.
    rewrite (run_ReadWord q RegZoutLSB _ _ vz ez d4 Hz).
    eexists. cbn [snd trace]. rewrite <- !app_assoc.
    split; [reflexivity | now right; right; right; left].
  - destruct (dataSkipped st).
    + destruct (ReadRegU16LE (bus q) RegToutLSB d) as [[vt et] d2] eqn:Ht.
      rewrite (run_ReadWord q RegToutLSB _ _ vt et d2 Ht).
      eexists. cbn [snd trace]. rewrite <- !app_assoc.
      split; [reflexivity | now right; right; right; right].
    + exists []. now split; [| left].
Qed.

(** X1: when the status read itself fails, the call returns the zero sample
    with the error of that read, whatever byte came with it, and issues no
    other transaction. *)
Theorem GetMagnetRaw_status_failure (st : Z) (e : error) (d : W) :
  ReadRegU8 (bus q) RegStatus1 (dev w) = ((st, Some e), d) ->
  fst (GetMagnetRaw q w) = (0, 0, 0, Some e) /\
  dev (snd (GetMagnetRaw q w)) = d /\
  trace (snd (GetMagnetRaw q w)) = trace w ++ [EvReadRegU8 (bus q) 0x06].
Proof.
  intros Hst. rewrite (GetMagnetRaw_status_err st e d Hst).
  repeat split; reflexivity.
Qed.

(** X2: one call issues between one and four transactions, all of them
    reads on the driver's own handle: the status read first, then nothing,
    or the axis reads X, X Y or X Y Z in this order, or the temperature
    read alone.  It never writes a register and never opens a bus. *)
Theorem GetMagnetRaw_reads_only :
  exists evs,
    trace (snd (GetMagnetRaw q w)) = trace w ++ evs /\
    (evs = [EvReadRegU8 (bus q) 0x06] \/
     evs = [EvReadRegU8 (bus q) 0x06; EvReadRegU16LE (bus q) 0x00] \/
     evs = [EvReadRegU8 (bus q) 0x06; EvReadRegU16LE (bus q) 0x00;
            EvReadRegU16LE (bus q) 0x02] \/
     evs = [EvReadRegU8 (bus q) 0x06; EvReadRegU16LE (bus q) 0x00;
            EvReadRegU16LE (bus q) 0x02; EvReadRegU16LE (bus q) 0x04] \/
     evs = [EvReadRegU8 (bus q) 0x06; EvReadRegU16LE (bus q) 0x07]) /\
    (1 <= List.length evs <= 4)%nat /\
    Forall (fun ev => isRead ev = true /\ eventHandle ev = Some (bus q)) evs.
Proof.
  destruct GetMagnetRaw_trace_cases as (evs & Htr & Hcases).
  exists (EvReadRegU8 (bus q) RegStatus1 :: evs).
  split; [exact Htr |].
  destruct Hcases as [-> | [-> | [-> | [-> | ->]]]];
    (split; [tauto |]); (split; [cbn; lia |]);
    repeat constructor.
Qed.

(** X3: every coordinate returned is a signed 16-bit value, for every
    status and every answer of the bus, also when an error is returned. *)
Theorem GetMagnetRaw_sample_range :
  Int.is_int16 (fst (fst (fst (fst (GetMagnetRaw q w))))) /\
  Int.is_int16 (snd (fst (fst (fst (GetMagnetRaw q w))))) /\
  Int.is_int16 (snd (fst (fst (GetMagnetRaw q w)))).
Proof.
  assert (H0 : Int.is_int16 0) by (unfold Int.is_int16; lia).
  destruct (ReadRegU8 (bus q) RegStatus1 (dev w)) as [[st e] d] eqn:Hst.
  destruct e as [e |].
  { rewrite (GetMagnetRaw_status_err st e d Hst). cbn [fst snd]; (split; [| split]); assumption. }
  rewrite (GetMagnetRaw_status q w st d Hst).
  destruct (overflow st); [cbn [fst snd]; (split; [| split]); assumption |].
  destruct (dataReady st).
  - destruct (ReadRegU16LE (bus q) RegXoutLSB d) as [[vx ex] d2] eqn:Hx.
    rewrite (run_ReadWord q RegXoutLSB _ _ vx ex d2 Hx). cbn [fst snd].
    pose proof (complement2_range vx) as Rx.
    destruct ex as [ex |]; [cbn [fst snd]; (split; [| split]); assumption |].
    destruct (ReadRegU16LE (bus q) RegYoutLSB d2) as [[vy ey] d3] eqn:Hy.
    rewrite (run_ReadWord q RegYoutLSB _ _ vy ey d3 Hy). cbn [fst snd].
    pose proof (complement2_range vy) as Ry.
    destruct ey as [ey |]; [cbn [fst snd]; (split; [| split]); assumption |].
    destruct (ReadRegU16LE (bus q) RegZoutLSB d3) as [[vz ez] d4] eqn:Hz.
    rewrite (run_ReadWord q RegZoutLSB _ _ vz ez d4 Hz). cbn [fst snd].
    pose proof (complement2_range vz) as Rz. cbn [fst snd]; (split; [| split]); assumption.
  - destruct (dataSkipped st); [| cbn [fst snd]; (split; [| split]); assumption].
    destruct (ReadWord q RegToutLSB _) as [rt w2].
    cbn [fst snd]; (split; [| split]); assumption.
Qed.

(** X4: a call that returns no error either found no flag set, read only
    the status and returns the zero sample, or found data-ready set without
    overflow, read X, Y and Z successfully and returns their decodings.  A
    set data-skipped bit without data-ready, and a set overflow bit, never
    give an error-free result. *)
Theorem GetMagnetRaw_nil_error (x y z : Z) (w' : World W H) :
  GetMagnetRaw q w = ((x, y, z, None), w') ->
  exists st d,
    ReadRegU8 (bus q) RegStatus1 (dev w) = ((st, None), d) /\
    overflow st = false /\
    ((dataReady st = false /\ dataSkipped st = false /\
      (x, y, z) = (0, 0, 0) /\
      w' = mkWorld d (trace w ++ [EvReadRegU8 (bus q) 0x06])) \/
     (dataReady st = true /\
      exists vx d2 vy d3 vz,
        ReadRegU16LE (bus q) RegXoutLSB d = ((vx, None), d2) /\
        ReadRegU16LE (bus q) RegYoutLSB d2 = ((vy, None), d3) /\
        ReadRegU16LE (bus q) RegZoutLSB d3 = ((vz, None), dev w') /\
        (x, y, z) = (complement2 vx, complement2 vy, complement2 vz) /\
        trace w' = trace w ++ [EvReadRegU8 (bus q) 0x06;
                               EvReadRegU16LE (bus q) 0x00;
                               EvReadRegU16LE (bus q) 0x02;
                               EvReadRegU16LE (bus q) 0x04])).
Proof.
  intros Hrun.
  destruct (ReadRegU8 (bus q) RegStatus1 (dev w)) as [[st e] d] eqn:Hst.
  destruct e as [e |].
  { rewrite (GetMagnetRaw_status_err st e d Hst) in Hrun. discriminate Hrun. }
  rewrite (GetMagnetRaw_status q w st d Hst) in Hrun.
  exists st, d. split; [reflexivity |].
  destruct (overflow st); [discriminate Hrun |]. split; [reflexivity |].
  destruct (dataReady st).
  - right. split; [reflexivity |].
    destruct (ReadRegU16LE (bus q) RegXoutLSB d) as [[vx ex] d2] eqn:Hx.
    rewrite (run_ReadWord q RegXoutLSB _ _ vx ex d2 Hx) in Hrun.
    cbn [fst snd] in Hrun. destruct ex as [ex |]; [discriminate Hrun |].
    destruct (ReadRegU16LE (bus q) RegYoutLSB d2) as [[vy ey] d3] eqn:Hy.
    rewrite (run_ReadWord q RegYoutLSB _ _ vy ey d3 Hy) in Hrun.
    cbn [fst snd] in Hrun. destruct ey as [ey |]; [discriminate Hrun |].
    destruct (ReadRegU16LE (bus q) RegZoutLSB d3) as [[vz ez] d4] eqn:Hz.
    rewrite (run_ReadWord q RegZoutLSB _ _ vz ez d4 Hz) in Hrun.
    cbn [fst snd] in Hrun. destruct ez as [ez |]; [discriminate Hrun |].
    injection Hrun as Ex Ey Ez Ew. subst x y z w'.
    exists vx, d2, vy, d3, vz. cbn [dev trace]. rewrite <- !app_assoc.
    repeat split; assumption.
  - left. split; [reflexivity |].
    destruct (dataSkipped st).
    + destruct (ReadWord q RegToutLSB _) as [[vt et] w2].
      cbn [snd] in Hrun. destruct et; discriminate Hrun.
    + injection Hrun as Ex Ey Ez Ew. subst x y z w'. now repeat split.
Qed.

(** X5: when data is ready and the three axis reads succeed with 16-bit
    words, the sample is returned without error and the raw words are
    recovered from it by the conversion to [uint16]; a coordinate is
    negative exactly when the top bit of its word is set. *)
Theorem GetMagnetRaw_sample_roundtrip (st : Z) (d : W) vx d2 vy d3 vz d4 :
  ReadRegU8 (bus q) RegStatus1 (dev w) = ((st, None), d) ->
  overflow st = false -> dataReady st = true ->
  ReadRegU16LE (bus q) RegXoutLSB d = ((vx, None), d2) ->
  ReadRegU16LE (bus q) RegYoutLSB d2 = ((vy, None), d3) ->
  ReadRegU16LE (bus q) RegZoutLSB d3 = ((vz, None), d4) ->
  Int.is_uint16 vx -> Int.is_uint16 vy -> Int.is_uint16 vz ->
  exists x y z w',
    GetMagnetRaw q w = ((x, y, z, None), w') /\
    (Int.to_uint16 x, Int.to_uint16 y, Int.to_uint16 z) = (vx, vy, vz) /\
    (x < 0 <-> 0x8000 <= vx) /\ (y < 0 <-> 0x8000 <= vy) /\
    (z < 0 <-> 0x8000 <= vz).
Proof.
  intros Hst Hov Hrdy Hx Hy Hz Ux Uy Uz.
  exists (complement2 vx), (complement2 vy), (complement2 vz). eexists.
  split.
  - rewrite (GetMagnetRaw_status q w st d Hst), Hov, Hrdy.
    rewrite (run_ReadWord q RegXoutLSB _ _ vx None d2 Hx). cbn [fst snd].
    rewrite (run_ReadWord q RegYoutLSB _ _ vy None d3 Hy). cbn [fst snd].
    rewrite (run_ReadWord q RegZoutLSB _ _ vz None d4 Hz). reflexivity.
  - rewrite !to_uint16_complement2 by assumption.
    split; [reflexivity |].
    repeat split; now apply complement2_sign.
Qed.

(** X6: [ReadWord] issues one word read, hands the error through, and
    returns the decoding of the word that came with it, also on failure;
    for a 16-bit word the result is a signed 16-bit value from which the
    word is recovered. *)
Theorem ReadWord_decodes (reg v : Z) (e : option error) (d : W) :
  ReadRegU16LE (bus q) reg (dev w) = ((v, e), d) ->
  Int.is_uint16 v ->
  exists x,
    ReadWord q reg w
      = ((x, e), mkWorld d (trace w ++ [EvReadRegU16LE (bus q) reg])) /\
    Int.is_int16 x /\ Int.to_uint16 x = v /\ (x < 0 <-> 0x8000 <= v).
Proof.
  intros Hrd Hv. exists (complement2 v). split.
  - destruct w as [dw tw]. cbn [dev] in Hrd.
    exact (run_ReadWord q reg dw tw v e d Hrd).
  - split; [apply complement2_range |].
    split; [now apply to_uint16_complement2 | now apply complement2_sign].
Qed.

End ReadFacts.

Section ConfigIndependence.

Context {W H : Type} {env : I2CEnv W H}.


End ConfigIndependence.

(** ** Further properties of the configuration *)

Section ConfigFacts.

Context {W H : Type} {env : I2CEnv W H}.

(** X8: of two [SetMode] calls in a row the second decides the stored
    configuration, whatever the first stored and whether or not either
    write failed; the chip sees both control bytes, in the order of the
    calls. *)
Theorem SetMode_last_call_wins (q : QMC5883L H)
  (m1 o1 r1 s1 m2 o2 r2 s2 : Z) (w : World W H) :
  let a := SetMode q m1 o1 r1 s1 w in
  let b := SetMode (fst (fst a)) m2 o2 r2 s2 (snd a) in
  fst (fst b) = mkQMC5883L (i2cBus q) (address q) o2 r2 s2 (bus q) /\
  fst (fst b) = fst (fst (SetMode q m2 o2 r2 s2 w)) /\
  trace (snd b)
    = trace w ++ [EvWriteRegU8 (bus q) RegControl1
                    (Z.lor (Z.lor (Z.lor m1 o1) r1) s1);
                  EvWriteRegU8 (bus q) RegControl1
                    (Z.lor (Z.lor (Z.lor m2 o2) r2) s2)].
Proof.
  cbv zeta. rewrite !SetMode_run.
  cbn [fst snd trace i2cBus address bus]. rewrite <- app_assoc.
  repeat split; reflexivity.
Qed.

(** X9: the mode is sent to the chip but not kept: calls that differ only
    in the mode, on any bus, leave the same driver, although the bytes they
    write differ, so the driver cannot tell afterwards whether the chip was
    put in standby or in continuous mode. *)
Theorem SetMode_mode_not_stored (q : QMC5883L H) (odr rng osr : Z)
  (w1 w2 : World W H) :
  fst (fst (SetMode q ModeSTBY odr rng osr w1))
    = fst (fst (SetMode q ModeCONT odr rng osr w2)) /\
  (forall g r o,
     trace (snd (SetMode q ModeSTBY (rateBits r) (rangeBits g)
                         (oversamplingBits o) w1))
     <> trace (snd (SetMode q ModeCONT (rateBits r) (rangeBits g)
                            (oversamplingBits o) w1))).
Proof.
  split.
  - rewrite !SetMode_run. reflexivity.
  - intros g r o Heq. rewrite !SetMode_run in Heq. cbn [snd trace] in Heq.
    apply app_inv_head in Heq. injection Heq as Hval.
    destruct g, r, o; vm_compute in Hval; discriminate Hval.
Qed.

(** X10: the control byte determines the configuration: two calls with
    enumerated values that write the same byte were given the same mode,
    data rate, range and oversampling. *)
Theorem SetMode_control_byte_injective (q : QMC5883L H) (w : World W H)
  (m m' : Mode) (r r' : DataRate) (g g' : Range) (o o' : Oversampling) :
  trace (snd (SetMode q (modeBits m) (rateBits r) (rangeBits g)
                      (oversamplingBits o) w))
  = trace (snd (SetMode q (modeBits m') (rateBits r') (rangeBits g')
                        (oversamplingBits o') w)) ->
  m = m' /\ r = r' /\ g = g' /\ o = o'.
Proof.
  intros Heq. rewrite !SetMode_run in Heq. cbn [snd trace] in Heq.
  apply app_inv_head in Heq. injection Heq as Hval.
  destruct m, m', r, r', g, g', o, o';
    first [ now repeat split | vm_compute in Hval; discriminate Hval ].
Qed.

End ConfigFacts.

Lemma SetMode_control_byte_injective_witness :
  let w := Mock.start (Mock.failing_write RegControl1) in
  trace (snd (SetMode Mock.driver (modeBits Continuous) (rateBits Rate200Hz)
                      (rangeBits Gauss8) (oversamplingBits Over64) w))
    = [EvWriteRegU8 Mock.handle 0x09 0xdd] /\
  (Continuous = Continuous /\ Rate200Hz = Rate200Hz /\ Gauss8 = Gauss8 /\
   Over64 = Over64).
Proof.
  intros w. split; [reflexivity |].
  exact (SetMode_control_byte_injective Mock.driver w
           Continuous Continuous Rate200Hz Rate200Hz Gauss8 Gauss8
           Over64 Over64 eq_refl).
Defined.

(** Arguments outside the enumerations are written as given, and then the
    byte no longer tells them apart. *)
Example SetMode_unchecked_arguments :
  trace (snd (SetMode Mock.driver 0x04 Odr10HZ Rng2G Osr512
                      (Mock.start (Mock.healthy 0 0 0 0))))
  = trace (snd (SetMode Mock.driver ModeSTBY Odr50HZ Rng2G Osr512
                        (Mock.start (Mock.healthy 0 0 0 0)))).
Proof. reflexivity. Qed.

(** ** Further properties of the construction *)

Section ConstructionFacts.

Context {W H : Type} {env : I2CEnv W H}.

(** The driver a returning [New] gives. *)
Lemma New_returned (busno addr : Z) (w : World W H) (q : QMC5883L H)
  (w' : World W H) :
  New busno addr w = (Returned q, w') ->
  q = mkQMC5883L (effectiveBus busno) (effectiveAddress addr)
                 Odr10HZ Rng2G Osr512
                 (fst (fst (NewI2C (effectiveAddress addr)
                                   (effectiveBus busno) (dev w)))).
Proof.
  intros Hnew.
  pose proof (New_run busno addr w) as Hrun. cbv zeta in Hrun.
  rewrite Hrun in Hnew. clear Hrun.
  destruct (snd (fst (NewI2C _ _ (dev w)))); [discriminate Hnew |].
  destruct (fst (bus_WriteRegU8 _ RegRstPeriod 1 _)); [discriminate Hnew |].
  destruct (fst (bus_WriteRegU8 _ RegControl2 SoftRst _));
    [discriminate Hnew |].
  rewrite SetMode_run in Hnew. cbn [fst snd i2cBus address bus] in Hnew.
  now injection Hnew as Hq _.
Qed.

(** X11: [New] ends the process exactly when the bus does not open or one
    of the two reset writes fails; the error logged is the error of that
    call, and nothing is sent after it: in particular control register 1
    is not written. *)
Theorem New_fatal (busno addr : Z) (w : World W H) :
  let a := effectiveAddress addr in
  let b := effectiveBus busno in
  (forall h e d,
     NewI2C a b (dev w) = ((h, Some e), d) ->
     New busno addr w = (Fatal e, mkWorld d (trace w ++ [EvNewI2C a b]))) /\
  (forall h d e d1,
     NewI2C a b (dev w) = ((h, None), d) ->
     WriteRegU8 h RegRstPeriod 0x01 d = (Some e, d1) ->
     New busno addr w
       = (Fatal e, mkWorld d1 (trace w ++ [EvNewI2C a b;
                                           EvWriteRegU8 h 0x0b 0x01]))) /\
  (forall h d d1 e d2,
     NewI2C a b (dev w) = ((h, None), d) ->
     WriteRegU8 h RegRstPeriod 0x01 d = (None, d1) ->
     WriteRegU8 h RegControl2 SoftRst d1 = (Some e, d2) ->
     New busno addr w
       = (Fatal e, mkWorld d2 (trace w ++ [EvNewI2C a b;
                                           EvWriteRegU8 h 0x0b 0x01;
                                           EvWriteRegU8 h 0x0a 0x80]))) /\
  (forall e w',
     New busno addr w = (Fatal e, w') ->
     Forall (fun ev => forall h v, ev <> EvWriteRegU8 h RegControl1 v)
            (skipn (List.length (trace w)) (trace w')) /\
     (snd (fst (NewI2C a b (dev w))) = Some e \/
      exists h d,
        NewI2C a b (dev w) = ((h, None), d) /\
        (fst (WriteRegU8 h RegRstPeriod 0x01 d) = Some e \/
         exists d1,
           WriteRegU8 h RegRstPeriod 0x01 d = (None, d1) /\
           fst (WriteRegU8 h RegControl2 SoftRst d1) = Some e))).
Proof.
  intros a b.
  pose proof (New_run busno addr w) as Hrun. cbv zeta in Hrun.
  fold a b in Hrun.
  split; [| split; [| split]].
  - intros h e d Hopen. rewrite Hrun, Hopen. reflexivity.
  - intros h d e d1 Hopen Hw1. rewrite Hrun, Hopen. cbn [fst snd].
    rewrite run_WriteRegU8. cbn [dev trace]. rewrite Hw1. cbn [fst snd].
    now rewrite <- app_assoc.
  - intros h d d1 e d2 Hopen Hw1 Hw2. rewrite Hrun, Hopen. cbn [fst snd].
    rewrite run_WriteRegU8. cbn [dev trace]. rewrite Hw1. cbn [fst snd].
    rewrite run_WriteRegU8. cbn [dev trace]. rewrite Hw2. cbn [fst snd].
    now rewrite <- !app_assoc.
  - intros e w' Hnew. rewrite Hrun in Hnew. clear Hrun.
    destruct (NewI2C a b (dev w)) as [[h e0] d] eqn:Hopen.
    cbn [fst snd] in Hnew. destruct e0 as [e0 |].
    { injection Hnew as He Hw. subst e0 w'. cbn [trace]. split; [| now left].
      rewrite skipn_app, skipn_all, Nat.sub_diag. cbn.
      repeat constructor. discriminate. }
    rewrite run_WriteRegU8 in Hnew. cbn [dev trace fst snd] in Hnew.
    destruct (WriteRegU8 h RegRstPeriod 1 d) as [e1 d1] eqn:Hw1.
    cbn [fst snd] in Hnew. destruct e1 as [e1 |].
    { injection Hnew as He Hw. subst e1 w'. cbn [trace]. split.
      - rewrite <- app_assoc, skipn_app, skipn_all, Nat.sub_diag. cbn.
        repeat constructor; discriminate.
      - right. exists h, d. split; [reflexivity |]. left. now rewrite Hw1. }
    rewrite run_WriteRegU8 in Hnew. cbn [dev trace fst snd] in Hnew.
    destruct (WriteRegU8 h RegControl2 SoftRst d1) as [e2 d2] eqn:Hw2.
    cbn [fst snd] in Hnew. destruct e2 as [e2 |]; [| discriminate Hnew].
    injection Hnew as He Hw. subst e2 w'. cbn [trace]. split.
    + rewrite <- !app_assoc, skipn_app, skipn_all, Nat.sub_diag. cbn.
      repeat constructor; discriminate.
    + right. exists h, d. split; [reflexivity |]. right.
      exists d1. split; [exact Hw1 |]. now rewrite Hw2.
Qed.

(** X12: when the bus opens and the two reset writes succeed, [New]
    returns a driver whatever the write of control register 1 answers: its
    error is dropped, and the driver stores 10Hz, 2 Gauss and oversampling
    512 also when the chip rejected that configuration. *)
Theorem New_config_error_ignored (busno addr : Z) (w : World W H)
  (h : H) (d1 d2 d3 d4 : W) (e : option error) :
  NewI2C (effectiveAddress addr) (effectiveBus busno) (dev w)
    = ((h, None), d1) ->
  WriteRegU8 h RegRstPeriod 0x01 d1 = (None, d2) ->
  WriteRegU8 h RegControl2 SoftRst d2 = (None, d3) ->
  WriteRegU8 h RegControl1 0x01 d3 = (e, d4) ->
  New busno addr w
    = (Returned (mkQMC5883L (effectiveBus busno) (effectiveAddress addr)
                            Odr10HZ Rng2G Osr512 h),
       mkWorld d4 (trace w ++ [EvNewI2C (effectiveAddress addr)
                                        (effectiveBus busno);
                               EvWriteRegU8 h 0x0b 0x01;
                               EvWriteRegU8 h 0x0a 0x80;
                               EvWriteRegU8 h 0x09 0x01])).
Proof.
  intros Hopen Hw1 Hw2 Hw3.
  pose proof (New_run busno addr w) as Hrun. cbv zeta in Hrun.
  rewrite Hrun, Hopen. clear Hrun. cbn [fst snd].
  rewrite run_WriteRegU8. cbn [dev trace]. rewrite Hw1. cbn [fst snd].
  rewrite run_WriteRegU8. cbn [dev trace]. rewrite Hw2. cbn [fst snd].
  rewrite SetMode_run. cbn [fst snd dev trace i2cBus address bus].
  change (Z.lor (Z.lor (Z.lor ModeCONT Odr10HZ) Rng2G) Osr512) with 1.
  rewrite Hw3. cbn [fst snd]. now rewrite <- !app_assoc.
Qed.

(** X13: a driver fresh from [New] has the range 2 Gauss stored, so the
    first overflow it meets is reported with the advice to switch to
    [Rng8G]. *)
Theorem New_then_overflow (busno addr : Z) (w : World W H)
  (q : QMC5883L H) (w1 : World W H) (st : Z) (d : W) :
  New busno addr w = (Returned q, w1) ->
  ReadRegU8 (bus q) RegStatus1 (dev w1) = ((st, None), d) ->
  overflow st = true ->
  GetMagnetRaw q w1
    = ((0, 0, 0, Some errOverflowHint),
       mkWorld d (trace w1 ++ [EvReadRegU8 (bus q) 0x06])).
Proof.
  intros Hnew Hst Hov.
  rewrite (GetMagnetRaw_status q w1 st d Hst), Hov.
  rewrite (New_returned busno addr w q w1 Hnew). reflexivity.
Qed.

End ConstructionFacts.

Lemma New_config_error_ignored_witness :
  let c := Mock.failing_write RegControl1 in
  fst (WriteRegU8 (I2CEnv := Mock.env) (0x1e, 2) RegControl1 0x01 c)
    = Some Mock.EIO /\
  New 2 0x1e (Mock.start c)
    = (Returned (mkQMC5883L 2 0x1e Odr10HZ Rng2G Osr512 (0x1e, 2)),
       mkWorld c [EvNewI2C 0x1e 2; EvWriteRegU8 (0x1e, 2) 0x0b 0x01;
                  EvWriteRegU8 (0x1e, 2) 0x0a 0x80;
                  EvWriteRegU8 (0x1e, 2) 0x09 0x01]).
Proof.
  intros c. split; [reflexivity |].
  exact (New_config_error_ignored 2 0x1e (Mock.start c) (0x1e, 2) c c c c
           (Some Mock.EIO) eq_refl eq_refl eq_refl eq_refl).
Defined.

Lemma New_then_overflow_witness :
  let c := Mock.healthy 0x02 0 0 0 in
  let w1 := snd (New 0 0 (Mock.start c)) in
  overflow 0x02 = true /\
  GetMagnetRaw Mock.driver w1
    = ((0, 0, 0, Some errOverflowHint),
       mkWorld c (trace w1 ++ [EvReadRegU8 Mock.handle 0x06])).
Proof.
  intros c w1. split; [reflexivity |].
  exact (New_then_overflow 0 0 (Mock.start c) Mock.driver w1 0x02 c
           eq_refl eq_refl eq_refl).
Defined.

(** ** The sampling program *)

Section ProgramFacts.

Context {W H : Type} {env : I2CEnv W H}.

(** The transactions of a returning [New]. *)
Lemma New_returned_trace (busno addr : Z) (w : World W H)
  (q : QMC5883L H) (w' : World W H) :
  New busno addr w = (Returned q, w') ->
  trace w' = trace w ++ [EvNewI2C (effectiveAddress addr)
                                  (effectiveBus busno);
                         EvWriteRegU8 (bus q) RegRstPeriod 0x01;
                         EvWriteRegU8 (bus q) RegControl2 SoftRst;
                         EvWriteRegU8 (bus q) RegControl1 0x01].
Proof.
  intros Hnew. pose proof (New_returned busno addr w q w' Hnew) as Hq.
  pose proof (New_run busno addr w) as Hrun. cbv zeta in Hrun.
  rewrite Hrun in Hnew. clear Hrun.
  destruct (NewI2C (effectiveAddress addr) (effectiveBus busno) (dev w))
    as [[h e0] d0].
  cbn [fst snd] in Hnew, Hq. destruct e0; [discriminate Hnew |].
  rewrite run_WriteRegU8 in Hnew. cbn [dev trace fst snd] in Hnew.
  destruct (fst (WriteRegU8 h RegRstPeriod 1 d0)); [discriminate Hnew |].
  rewrite run_WriteRegU8 in Hnew. cbn [dev trace fst snd] in Hnew.
  destruct (fst (WriteRegU8 h RegControl2 SoftRst _)); [discriminate Hnew |].
  rewrite SetMode_run in Hnew. cbn [fst snd dev trace bus] in Hnew.
  injection Hnew as _ Hw. subst w' q. cbn [trace bus].
  rewrite <- !app_assoc. reflexivity.
Qed.

(** X14: when the sensor part of [main] gets its sensor, it has opened bus
    1 at address 0x0d and sent four writes: 0x01 to 0x0b, 0x80 to 0x0a, the
    default control byte 0x01 and then the control byte 0x1d (continuous,
    200Hz, 8 Gauss, oversampling 512) to 0x09.  The sensor stores 200Hz,
    8 Gauss and oversampling 512, so the overflows [main] logs carry no
    advice to change the range. *)
Theorem main_sensor_setup (w : World W H) (q : QMC5883L H)
  (w' : World W H) :
  main_sensor w = (Returned q, w') ->
  q = mkQMC5883L 1 0x0d Odr200HZ Rng8G Osr512 (bus q) /\
  trace w' = trace w ++ [EvNewI2C 0x0d 1;
                         EvWriteRegU8 (bus q) 0x0b 0x01;
                         EvWriteRegU8 (bus q) 0x0a 0x80;
                         EvWriteRegU8 (bus q) 0x09 0x01;
                         EvWriteRegU8 (bus q) 0x09 0x1d] /\
  (forall (w1 : World W H) st d,
     ReadRegU8 (bus q) RegStatus1 (dev w1) = ((st, None), d) ->
     overflow st = true ->
     fst (GetMagnetRaw q w1) = (0, 0, 0, Some errOverflowPlain)).
Proof.
  intros Hmain. unfold main_sensor in Hmain. unfold bind at 1 in Hmain.
  destruct (New DfltBus DfltAddress w) as [r w1] eqn:Hnew.
  destruct r as [q0 | e]; [| discriminate Hmain].
  pose proof (New_returned DfltBus DfltAddress w q0 w1 Hnew) as Hq0.
  pose proof (New_returned_trace DfltBus DfltAddress w q0 w1 Hnew) as Htr.
  unfold bind at 1 in Hmain. rewrite SetMode_run in Hmain.
  unfold ret in Hmain. cbn [fst snd] in Hmain.
  injection Hmain as Hq Hw. subst w'. cbn [trace].
  assert (Hb : bus q = bus q0) by (subst q; reflexivity).
  split; [| split].
  - subst q. cbn [bus]. rewrite Hq0. reflexivity.
  - rewrite Hb, Htr, <- app_assoc. reflexivity.
  - intros w2 st d Hst Hov.
    rewrite (GetMagnetRaw_status q w2 st d Hst), Hov. subst q. reflexivity.
Qed.

(** One more round of the loop. *)
Lemma main_loop_step (n : nat) (q : QMC5883L H) (w : World W H) :
  main_loop (S n) q w
  = let (line, w1) := GetMagnetRaw q w in
    let (lines, w2) := main_loop n q w1 in
    (line :: lines, w2).
Proof. reflexivity. Qed.

(** X15: the first [n] rounds of the sampling loop log [n] lines and issue
    between [n] and [4 * n] transactions, every one a register read on the
    sensor's handle: the loop never writes to the chip. *)
Theorem main_loop_reads_only (n : nat) (q : QMC5883L H) (w : World W H) :
  List.length (fst (main_loop n q w)) = n /\
  exists evs,
    trace (snd (main_loop n q w)) = trace w ++ evs /\
    (n <= List.length evs <= 4 * n)%nat /\
    Forall (fun ev => isRead ev = true /\ eventHandle ev = Some (bus q)) evs.
Proof.
  revert w. induction n as [| n IH]; intros w.
  - cbn. split; [reflexivity |]. exists []. rewrite app_nil_r.
    repeat split; auto.
  - rewrite main_loop_step.
    destruct (GetMagnetRaw_trace_cases q w) as (evs1 & Htr1 & Hcases).
    destruct (GetMagnetRaw q w) as [line w1]. cbn [snd] in Htr1.
    destruct (IH w1) as (Hlen & evs & Htr & Hcount & Hall).
    destruct (main_loop n q w1) as [lines w2]. cbn [fst snd] in *.
    cbn [List.length].
    split; [now rewrite Hlen |].
    exists ((EvReadRegU8 (bus q) RegStatus1 :: evs1) ++ evs).
    rewrite Htr, Htr1, <- app_assoc. split; [reflexivity |].
    rewrite length_app. split.
    + destruct Hcases as [-> | [-> | [-> | [-> | ->]]]]; cbn; lia.
    + apply Forall_app. split; [| exact Hall].
      destruct Hcases as [-> | [-> | [-> | [-> | ->]]]];
        repeat constructor.
Qed.

End ProgramFacts.

Lemma main_sensor_setup_witness :
  let c := Mock.healthy 0x00 0 0 0 in
  main_sensor (Mock.start c)
    = (Returned (mkQMC5883L 1 0x0d Odr200HZ Rng8G Osr512 Mock.handle),
       snd (main_sensor (Mock.start c))) /\
  trace (snd (main_sensor (Mock.start c)))
    = [EvNewI2C 0x0d 1; EvWriteRegU8 Mock.handle 0x0b 0x01;
       EvWriteRegU8 Mock.handle 0x0a 0x80;
       EvWriteRegU8 Mock.handle 0x09 0x01;
       EvWriteRegU8 Mock.handle 0x09 0x1d].
Proof.
  intros c. split; [reflexivity |].
  exact (proj1 (proj2
           (main_sensor_setup (Mock.start c)
              (mkQMC5883L 1 0x0d Odr200HZ Rng8G Osr512 Mock.handle)
              (snd (main_sensor (Mock.start c))) eq_refl))).
Defined.

(** Three rounds of the loop on a chip with data ready. *)
Example main_loop_three_rounds :
  let c := Mock.healthy 0x01 0x0001 0xFFFF 0x8000 in
  fst (main_loop 3 Mock.driver (Mock.start c))
    = [(1, -1, -32768, None); (1, -1, -32768, None);
       (1, -1, -32768, None)] /\
  List.length (trace (snd (main_loop 3 Mock.driver (Mock.start c))))
    = 12%nat.
Proof. split; reflexivity. Qed.

(** ** Closing *)

Section CloseFacts.

Context {W H : Type} {closer : I2CCloser W H}.

(** X16: [Close] on a driver with a live handle gives up the handle whether
    or not closing succeeded: the driver keeps its configuration, holds the
    nil handle and the error of the close is returned; no register is
    touched.  A second [Close] on that driver panics on the nil handle
    without closing anything. *)
Theorem Close_drops_handle (q : QMC5883L H) (w : World W H) :
  isNil (bus q) = false ->
  let q' := mkQMC5883L (i2cBus q) (address q) (outputDataRate q)
                       (outputRange q) (oversamplingRate q) nilHandle in
  Close q w
    = (Completes (q', fst (CloseI2C (bus q) (dev w))),
       mkWorld (snd (CloseI2C (bus q) (dev w))) (trace w)) /\
  (forall w' : World W H, Close q' w' = (Panics, w')).
Proof.
  intros Hlive q'. split.
  - unfold Close. rewrite Hlive.
    now destruct (CloseI2C (bus q) (dev w)).
  - intros w'. unfold Close. subst q'. cbn [bus].
    now rewrite isNil_nilHandle.
Qed.

End CloseFacts.

Lemma Close_drops_handle_witness :
  let c := Bench.mkLine (Some Mock.EIO) in
  let closed := mkQMC5883L DfltBus DfltAddress Odr200HZ Rng8G Osr64 None in
  isNil (bus Bench.driver) = false /\
  Close Bench.driver (mkWorld c [])
    = (Completes (closed, Some Mock.EIO), mkWorld c []) /\
  Close closed (mkWorld c []) = (Panics, mkWorld c []).
Proof.
  intros c closed.
  assert (Hlive : isNil (bus Bench.driver) = false) by reflexivity.
  split; [exact Hlive |].
  destruct (Close_drops_handle Bench.driver (mkWorld c []) Hlive)
    as (Hfirst & Hsecond).
  split; [exact Hfirst | exact (Hsecond (mkWorld c []))].
Defined.

(** ** Flags with defaults from the environment *)

Section FlagFacts.

Context {F P : Type} {fe : FlagEnv F P}.

(** X17: [getEnvArg] defines the flag under the name of the environment
    variable and never looks at its [arg] parameter; the default of the flag
    is the value of the variable whenever the variable is set, also when it
    is set to the empty string, and the given default only when it is not
    set. *)
Theorem getEnvArg_ignores_arg (name arg arg' dflt usage : string) (f : F) :
  getEnvArg name arg dflt usage f = getEnvArg name arg' dflt usage f /\
  (snd (LookupEnv name f) = true ->
   getEnvArg name arg dflt usage f
     = flag_String name (fst (LookupEnv name f)) usage f) /\
  (snd (LookupEnv name f) = false ->
   getEnvArg name arg dflt usage f = flag_String name dflt usage f).
Proof.
  unfold getEnvArg. destruct (LookupEnv name f) as [ev avail].
  cbn [fst snd]. split; [reflexivity |].
  split; intros ->; now destruct (flag_String name _ usage f).
Qed.

End FlagFacts.

(** A variable set to the empty string replaces the default, and the flag
    is named after the variable, not after [arg]. *)
Example getEnvArg_empty_variable :
  let p := Bench.mkProcess [("I2C_BUS", "")]%string [] in
  getEnvArg "I2C_BUS" "bus" "1" "i2c bus number" p
  = ("I2C_BUS"%string,
     Bench.mkProcess [("I2C_BUS", "")]%string
       [("I2C_BUS", "", "i2c bus number")]%string).
Proof. reflexivity. Qed.

Example getEnvArg_unset_variable :
  let p := Bench.mkProcess [("HOME", "/root")]%string [] in
  getEnvArg "I2C_BUS" "bus" "1" "i2c bus number" p
  = ("I2C_BUS"%string,
     Bench.mkProcess [("HOME", "/root")]%string
       [("I2C_BUS", "1", "i2c bus number")]%string).
Proof. reflexivity. Qed.

(** ** Runs of the further properties on the scripted bus *)

Lemma GetMagnetRaw_status_failure_witness :
  fst (GetMagnetRaw Mock.driver (Mock.start Mock.absent))
    = (0, 0, 0, Some Mock.EIO) /\
  trace (snd (GetMagnetRaw Mock.driver (Mock.start Mock.absent)))
    = [EvReadRegU8 Mock.handle 0x06].
Proof.
  assert (Hst : ReadRegU8 (bus Mock.driver) RegStatus1
                  (dev (Mock.start Mock.absent))
                = ((0, Some Mock.EIO), Mock.absent)) by reflexivity.
  destruct (GetMagnetRaw_status_failure Mock.driver (Mock.start Mock.absent)
              0 Mock.EIO Mock.absent Hst) as (Hres & _ & Htr).
  split; [exact Hres | exact Htr].
Defined.

Lemma GetMagnetRaw_nil_error_witness :
  let c := Mock.healthy 0x05 0x0001 0xFFFF 0x8000 in
  exists st d,
    ReadRegU8 Mock.handle RegStatus1 c = ((st, None), d) /\
    overflow st = false.
Proof.
  intros c.
  assert (Hrun : GetMagnetRaw Mock.driver (Mock.start c)
                 = ((1, -1, -32768, None),
                    snd (GetMagnetRaw Mock.driver (Mock.start c))))
    by reflexivity.
  destruct (GetMagnetRaw_nil_error Mock.driver (Mock.start c) 1 (-1) (-32768)
              (snd (GetMagnetRaw Mock.driver (Mock.start c))) Hrun)
    as (st & d & Hst & Hov & _).
  exists st, d. split; [exact Hst | exact Hov].
Defined.

Lemma GetMagnetRaw_sample_roundtrip_witness :
  let c := Mock.healthy 0x01 0x0001 0xFFFF 0x8000 in
  exists x y z w',
    GetMagnetRaw Mock.driver (Mock.start c) = ((x, y, z, None), w') /\
    (Int.to_uint16 x, Int.to_uint16 y, Int.to_uint16 z)
      = (0x0001, 0xFFFF, 0x8000) /\
    (x < 0 <-> 0x8000 <= 0x0001) /\ (y < 0 <-> 0x8000 <= 0xFFFF) /\
    (z < 0 <-> 0x8000 <= 0x8000).
Proof.
  intros c.
  apply (GetMagnetRaw_sample_roundtrip Mock.driver (Mock.start c)
           0x01 c 0x0001 c 0xFFFF c 0x8000 c);
    try reflexivity; unfold Int.is_uint16; lia.
Defined.

Lemma ReadWord_decodes_witness :
  exists x,
    ReadWord Mock.driver RegToutLSB
             (Mock.start (Mock.failing_word 0x04 RegYoutLSB))
      = ((x, None),
         mkWorld (Mock.failing_word 0x04 RegYoutLSB)
                 [EvReadRegU16LE Mock.handle RegToutLSB]) /\
    Int.is_int16 x /\ Int.to_uint16 x = 0x0102 /\ (x < 0 <-> 0x8000 <= 0x0102).
Proof.
  apply (ReadWord_decodes Mock.driver
           (Mock.start (Mock.failing_word 0x04 RegYoutLSB))
           RegToutLSB 0x0102 None (Mock.failing_word 0x04 RegYoutLSB));
    [reflexivity | unfold Int.is_uint16; lia].
Defined.

